(** * Agro-Vision backend (src/main.py): the job orchestration pipeline

    A shallow embedding of the two request handlers of [src/main.py],
    [process_local_images] (local mode) and [generate_map] (remote mode),
    together with the request model [ImageProcessRequest] and the key check
    [get_api_key].

    The handlers are effectful: they touch the filesystem, call the storage
    client, and shell out to MATLAB.  They are embedded in a small
    state-and-exception monad whose state is the filesystem plus the
    chronological trace of the calls made to the external collaborators.
    The collaborators themselves (storage service, external computation,
    the platform's [os.getcwd], [os.path.abspath] and [str] of an exception)
    are a record of oracles, [World], over which every theorem quantifies.
    Console logging ([print]) is not part of the model. *)

From Stdlib Require Import ZArith String Ascii List Lia.
From stdpp Require Import base option gmap strings pretty list fin_maps.

Local Open Scope Z_scope.
Local Open Scope string_scope.

(** ** Data model *)

Definition bytes := list Byte.byte.

(** Python exceptions that can occur in the handlers.  [CollaboratorError]
    stands for whatever the storage client raises. *)
Inductive exn : Type :=
| HTTPException (status_code : Z) (detail : string)
| RequestValidationError
| FileExistsError (path : string)
| FileNotFoundError (path : string)
| IsADirectoryError (path : string)
| NotADirectoryError (path : string)
| TypeError
| CollaboratorError (msg : string).

(** The value a storage download hands back: a bytes object, or no value. *)
Inductive py_value : Type :=
| PyNone
| PyBytes (b : bytes).

(** What [subprocess.run(..., capture_output=True, text=True)] returns. *)
Record CompletedProcess : Type := mkCompletedProcess {
  returncode : Z;
  stdout : string;
  stderr : string
}.

(** A filesystem entry: a directory or a regular file with its content. *)
Inductive node : Type :=
| Dir
| File (content : bytes).

Abbreviation filesystem := (gmap string node).

(** Calls made to the external collaborators, with what came back. *)
Inductive event : Type :=
| EvDownload (bucket path : string) (res : exn + py_value)
| EvRun (command : string) (process : CompletedProcess)
| EvUpload (bucket path : string) (content : bytes) (content_type : string)
           (res : option exn)
| EvPublicUrl (bucket path : string) (res : exn + string).

(** A JSON-like response body: a Python dict with string values, in
    insertion order. *)
Definition response := list (string * string).

(** [class ImageProcessRequest(BaseModel)] *)
Record ImageProcessRequest : Type := mkImageProcessRequest {
  rgb_image_path : string;
  nir_image_path : string
}.

(** The external world.  The collaborators may answer differently from one
    call to the next: each of them sees the calls made so far.
    [subprocess_run] also sees the command line and the filesystem; besides
    the completed process it says whether the computation wrote its output
    file, and with which content (its only filesystem effect, see the
    contract of the external computation). *)
Record World : Type := mkWorld {
  SERVER_API_KEY : string;
  os_getcwd : string;
  os_path_abspath : string -> string;
  py_str : exn -> string;
  storage_download : list event -> string -> string -> exn + py_value;
  storage_upload :
    list event -> string -> string -> bytes -> string -> option exn;
  storage_get_public_url : list event -> string -> string -> exn + string;
  subprocess_run :
    list event -> string -> filesystem -> CompletedProcess * option bytes
}.

(** ** The monad: state passing with exceptions *)

Record state : Type := mkState {
  fs : filesystem;
  trace : list event
}.

Inductive outcome (A : Type) : Type :=
| Returned (a : A)
| Raised (e : exn).
Arguments Returned {A} a.
Arguments Raised {A} e.

Definition M (A : Type) : Type := state -> outcome A * state.

#[global] Instance M_ret : MRet M := fun A a s => (Returned a, s).

#[global] Instance M_bind : MBind M := fun A B f m s =>
  match m s with
  | (Returned a, s') => f a s'
  | (Raised e, s') => (Raised e, s')
  end.

Definition raise {A : Type} (e : exn) : M A := fun s => (Raised e, s).

(** [try: body except Exception as e: handler e] *)
Definition try_except {A : Type} (body : M A) (handler : exn -> M A) : M A :=
  fun s =>
    match body s with
    | (Returned a, s') => (Returned a, s')
    | (Raised e, s') => handler e s'
    end.

(** [try: body finally: final].  An exception raised by [final] replaces
    the outcome of [body]. *)
Definition try_finally {A : Type} (body : M A) (final : M unit) : M A :=
  fun s =>
    match body s with
    | (r, s') =>
        match final s' with
        | (Returned _, s'') => (r, s'')
        | (Raised e, s'') => (Raised e, s'')
        end
    end.

Definition get_fs : M filesystem := fun s => (Returned (fs s), s).
Definition get_trace : M (list event) := fun s => (Returned (trace s), s).
Definition put_fs (f : filesystem) : M unit :=
  fun s => (Returned tt, mkState f (trace s)).
Definition emit (ev : event) : M unit :=
  fun s => (Returned tt, mkState (fs s) (trace s ++ [ev])).

(** Running a handler from a filesystem, with an empty trace. *)
Definition initial (f : filesystem) : state := mkState f [].
Definition result_of {A : Type} (m : M A) (f : filesystem) : outcome A :=
  (m (initial f)).1.
Definition fs_after {A : Type} (m : M A) (f : filesystem) : filesystem :=
  fs (m (initial f)).2.
Definition trace_of {A : Type} (m : M A) (f : filesystem) : list event :=
  trace (m (initial f)).2.

(** ** Python and platform primitives *)

(** [a or b] on strings: [a] when it is non-empty, else [b]. *)
Definition py_or (a b : string) : string :=
  match a with
  | EmptyString => b
  | String _ _ => a
  end.

Definition startswith_sep (s : string) : bool :=
  match s with
  | String c _ => Ascii.eqb c "/"
  | EmptyString => false
  end.

Fixpoint endswith_sep (s : string) : bool :=
  match s with
  | EmptyString => false
  | String c EmptyString => Ascii.eqb c "/"
  | String _ r => endswith_sep r
  end.

(** [os.path.join(a, b)] of posixpath, for two components. *)
Definition os_path_join (a b : string) : string :=
  if startswith_sep b then b
  else match a with
       | EmptyString => b
       | String _ _ => if endswith_sep a then a +:+ b else a +:+ "/" +:+ b
       end.

Definition is_dir (f : filesystem) (p : string) : bool :=
  match f !! p with
  | Some Dir => true
  | _ => false
  end.

Definition is_file (f : filesystem) (p : string) : bool :=
  match f !! p with
  | Some (File _) => true
  | _ => false
  end.

(** [os.path.exists(p)] *)
Definition path_exists (f : filesystem) (p : string) : bool :=
  match f !! p with
  | Some _ => true
  | None => false
  end.

Definition os_path_exists (p : string) : M bool :=
  f ← get_fs; mret (path_exists f p).

(** [os.makedirs(p, exist_ok=True)]: nothing to do on a directory, an error
    on a regular file, otherwise the directory is created.  In both handlers
    the parent of [p] is the current directory, so only the leaf is new. *)
Definition os_makedirs (p : string) : M unit :=
  f ← get_fs;
  match f !! p with
  | Some Dir => mret tt
  | Some (File _) => raise (FileExistsError p)
  | None => put_fs (<[p := Dir]> f)
  end.

(** [open(p, 'wb+')]: the file is created or truncated. *)
Definition open_wb (p : string) : M unit :=
  f ← get_fs;
  match f !! p with
  | Some Dir => raise (IsADirectoryError p)
  | _ => put_fs (<[p := File []]> f)
  end.

(** [f.write(res)] on the file opened at [p]: the bytes go to the open
    file, which is the regular file found at [p]. *)
Definition file_write (p : string) (res : py_value) : M unit :=
  match res with
  | PyNone => raise TypeError
  | PyBytes b =>
      f ← get_fs;
      match f !! p with
      | Some (File _) => put_fs (<[p := File b]> f)
      | _ => mret tt
      end
  end.

(** [open(p, 'rb')], giving the content the reader will see. *)
Definition open_rb (p : string) : M bytes :=
  f ← get_fs;
  match f !! p with
  | Some (File b) => mret b
  | Some Dir => raise (IsADirectoryError p)
  | None => raise (FileNotFoundError p)
  end.

(** [q] is [p] itself or lies below it. *)
Definition within (p q : string) : bool :=
  String.eqb p q || String.prefix (p +:+ "/") q.

(** [shutil.rmtree(p)] *)
Definition shutil_rmtree (p : string) : M unit :=
  f ← get_fs;
  match f !! p with
  | Some Dir => put_fs (filter (fun kv => within p kv.1 = false) f)
  | Some (File _) => raise (NotADirectoryError p)
  | None => raise (FileNotFoundError p)
  end.

(** What the external computation does to the filesystem: it writes its
    output file at [out], unless a directory is in the way. *)
Definition write_output (f : filesystem) (out : string) (w : option bytes)
  : filesystem :=
  match w with
  | None => f
  | Some b => match f !! out with
              | Some Dir => f
              | _ => <[out := File b]> f
              end
  end.

(** The body of a request as it arrives: not JSON at all, or a JSON object
    whose fields carry strings (a request without a body counts as an object
    without fields). *)
Inductive raw_body : Type :=
| NotJson
| JsonObject (fields : gmap string string).

(** ** The handlers of src/main.py *)

Section Handlers.

Context (W : World).

Definition download (bucket path : string) : M py_value :=
  history ← get_trace;
  let res := storage_download W history bucket path in
  emit (EvDownload bucket path res) ;;
  match res with
  | inl e => raise e
  | inr v => mret v
  end.

Definition upload (bucket path : string) (content : bytes)
    (content_type : string) : M unit :=
  history ← get_trace;
  let res := storage_upload W history bucket path content content_type in
  emit (EvUpload bucket path content content_type res) ;;
  match res with
  | Some e => raise e
  | None => mret tt
  end.

Definition get_public_url (bucket path : string) : M string :=
  history ← get_trace;
  let res := storage_get_public_url W history bucket path in
  emit (EvPublicUrl bucket path res) ;;
  match res with
  | inl e => raise e
  | inr url => mret url
  end.

(** [subprocess.run(command, shell=True, capture_output=True, text=True)];
    [out] is the output destination named in [command]. *)
Definition run_command (command out : string) : M CompletedProcess :=
  history ← get_trace;
  f ← get_fs;
  let '(process, written) := subprocess_run W history command f in
  emit (EvRun command process) ;;
  put_fs (write_output f out written) ;;
  mret process.

Definition dquote : string := String "034"%char EmptyString.

(** The f-string of lines 86-90 and 141-145. *)
Definition matlab_command (project_path rgb nir out : string) : string :=
  "matlab -batch " +:+ dquote +:+
  "cd '" +:+ project_path +:+ "'; " +:+
  "runner('" +:+ rgb +:+ "', '" +:+ nir +:+ "', '" +:+ out +:+ "')" +:+ dquote.

(** Lines 95-98 and 149-152: the check of the exit status. *)
Definition check_returncode (process : CompletedProcess) : M unit :=
  if Z.eqb (returncode process) 0 then mret tt
  else
    let error_message :=
      "MATLAB execution failed: " +:+ py_or (stderr process) (stdout process) in
    raise (HTTPException 500 error_message).

(** Lines 42-47. *)
Definition get_api_key (api_key : string) : M string :=
  if String.eqb api_key (SERVER_API_KEY W) then mret api_key
  else raise (HTTPException 403 "Could not validate API credentials.").

Definition local_not_found_detail : string :=
  "Test files not found. Make sure 'test_rgb.jpg' and 'test_nir.jpg' are in the 'local_test_data' folder.".

(** Lines 59-108.  [job_id] is the value of [str(uuid.uuid4())]. *)
Definition process_local_images (job_id : string) : M response :=
  let project_path := os_getcwd W in
  let local_data_dir := os_path_join project_path "local_test_data" in
  let output_dir := os_path_join project_path "local_outputs" in
  os_makedirs output_dir ;;
  let local_rgb_path :=
    os_path_abspath W (os_path_join local_data_dir "test_rgb.jpg") in
  let local_nir_path :=
    os_path_abspath W (os_path_join local_data_dir "test_nir.jpg") in
  rgb_exists ← os_path_exists local_rgb_path;
  nir_exists ← os_path_exists local_nir_path;
  if negb rgb_exists || negb nir_exists then
    raise (HTTPException 404 local_not_found_detail)
  else
    let local_output_path :=
      os_path_abspath W
        (os_path_join output_dir ("local_map_" +:+ job_id +:+ ".png")) in
    try_except
      (let command :=
         matlab_command project_path local_rgb_path local_nir_path
                        local_output_path in
       process ← run_command command local_output_path;
       check_returncode process ;;
       mret [("message", "Local processing successful!");
             ("output_saved_to", local_output_path)])
      (fun e => raise (HTTPException 500 (py_str W e))).

Definition BUCKET_NAME : string := "vegetation-maps".

(** Line 120. *)
Definition workspace_path (cwd job_id : string) : string :=
  os_path_join cwd ("temp_" +:+ job_id).

(** Lines 138 and 156. *)
Definition output_filename (job_id : string) : string :=
  "stress_map_" +:+ job_id +:+ ".png".
Definition output_storage_path (job_id : string) : string :=
  "outputs/" +:+ output_filename job_id.

(** Lines 125-165: the body of the [try]. *)
Definition generate_map_body (request : ImageProcessRequest)
    (job_id temp_dir : string) : M response :=
  let local_rgb_path := os_path_join temp_dir "input_rgb.png" in
  let local_nir_path := os_path_join temp_dir "input_nir.png" in
  open_wb local_rgb_path ;;
  res ← download BUCKET_NAME (rgb_image_path request);
  file_write local_rgb_path res ;;
  open_wb local_nir_path ;;
  res ← download BUCKET_NAME (nir_image_path request);
  file_write local_nir_path res ;;
  let local_output_path := os_path_join temp_dir (output_filename job_id) in
  let project_path := os_getcwd W in
  let command :=
    matlab_command project_path
      (os_path_abspath W local_rgb_path) (os_path_abspath W local_nir_path)
      (os_path_abspath W local_output_path) in
  process ← run_command command (os_path_abspath W local_output_path);
  check_returncode process ;;
  content ← open_rb local_output_path;
  upload BUCKET_NAME (output_storage_path job_id) content "image/png" ;;
  public_url ← get_public_url BUCKET_NAME (output_storage_path job_id);
  mret [("message", "Stress map generated successfully!");
        ("output_url", public_url)].

(** Lines 167-170: the [except Exception as e] clause. *)
Definition generate_map_except (e : exn) : M response :=
  raise (HTTPException 500 (py_str W e)).

(** Lines 124-170: the [try] with its [except] clause. *)
Definition generate_map_try (request : ImageProcessRequest)
    (job_id temp_dir : string) : M response :=
  try_except (generate_map_body request job_id temp_dir) generate_map_except.

(** Lines 172-176: the [finally] clause. *)
Definition cleanup (temp_dir : string) : M unit :=
  os_path_exists temp_dir ≫= fun present : bool =>
  if present then shutil_rmtree temp_dir else mret tt.

(** Lines 113-176.  [job_id] is the value of [str(uuid.uuid4())]. *)
Definition generate_map (request : ImageProcessRequest) (job_id : string)
  : M response :=
  let temp_dir := workspace_path (os_getcwd W) job_id in
  os_makedirs temp_dir ;;
  try_finally (generate_map_try request job_id temp_dir) (cleanup temp_dir).

(** The request body as it arrives: a JSON object whose fields carry
    strings.  The model [ImageProcessRequest] (lines 51-54) declares two
    fields of type [str] without defaults, so both are required. *)
Definition ImageProcessRequest_validate (body : gmap string string)
  : option ImageProcessRequest :=
  match body !! "rgb_image_path", body !! "nir_image_path" with
  | Some rgb, Some nir => Some (mkImageProcessRequest rgb nir)
  | _, _ => None
  end.

(** Lines 112-113, from the point where the framework has parsed the JSON
    body and [api_key_header] (line 38) has handed over the key it found:
    the key dependency [get_api_key], then the body model, then the handler.
    [api_key] is the value [get_api_key] receives from [api_key_header]; the
    whole route, from the raw header and body, is [generate_stress_map_route]
    below. *)
Definition generate_stress_map (api_key : string) (body : gmap string string)
    (job_id : string) : M response :=
  get_api_key api_key ;;
  match ImageProcessRequest_validate body with
  | None => raise RequestValidationError
  | Some request => generate_map request job_id
  end.

(** Line 38: [APIKeyHeader(name="X-API-Key", auto_error=True)].  A header
    that is absent or empty is turned away with "Not authenticated" before
    [get_api_key] runs; [status] is the status code the installed FastAPI
    uses for it (403, or 401 in later versions). *)
Definition api_key_header (status : Z) (header : option string) : M string :=
  match header with
  | Some (String c key) => mret (String c key)
  | _ => raise (HTTPException status "Not authenticated")
  end.

(** The whole route of lines 112-113, from the raw request.  The framework
    parses the JSON body first, and a body that is not JSON is answered with
    a validation error whatever the key; then the key is extracted and
    checked; then the body model is applied and the handler called. *)
Definition generate_stress_map_route (status : Z) (header : option string)
    (raw : raw_body) (job_id : string) : M response :=
  match raw with
  | NotJson => raise RequestValidationError
  | JsonObject body =>
      api_key ← api_key_header status header;
      generate_stress_map api_key body job_id
  end.

End Handlers.

(** ** Reading a trace *)

(** The invocations of the external computation, in order. *)
Fixpoint invocations (tr : list event) : list (string * CompletedProcess) :=
  match tr with
  | [] => []
  | EvRun c p :: r => (c, p) :: invocations r
  | _ :: r => invocations r
  end.

(** The upload attempts: bucket, destination path, content type. *)
Fixpoint uploads (tr : list event) : list (string * string * string) :=
  match tr with
  | [] => []
  | EvUpload b p _ t _ :: r => (b, p, t) :: uploads r
  | _ :: r => uploads r
  end.

(** The public-URL resolutions: bucket, destination path, answer. *)
Fixpoint publications (tr : list event)
  : list (string * string * (exn + string)) :=
  match tr with
  | [] => []
  | EvPublicUrl b p res :: r => (b, p, res) :: publications r
  | _ :: r => publications r
  end.

(** The download calls: bucket, object path, answer. *)
Fixpoint downloads (tr : list event)
  : list (string * string * (exn + py_value)) :=
  match tr with
  | [] => []
  | EvDownload b p res :: r => (b, p, res) :: downloads r
  | _ :: r => downloads r
  end.

(** A download that gives the pipeline nothing to write: it raised, or it
    returned no value. *)
Definition download_failed (res : exn + py_value) : Prop :=
  match res with
  | inl _ => True
  | inr PyNone => True
  | inr (PyBytes _) => False
  end.

(** The exception a failed download leaves the [try] body with. *)
Definition download_error (res : exn + py_value) : exn :=
  match res with
  | inl e => e
  | inr _ => TypeError
  end.


(** ** The two modes, and the paths and commands of each *)

Inductive mode : Type :=
| Local
| Remote (request : ImageProcessRequest).

(** The handler serving a job in each mode. *)
Definition pipeline (W : World) (m : mode) (job_id : string) : M response :=
  match m with
  | Local => process_local_images W job_id
  | Remote request => generate_map W request job_id
  end.

(** The paths [process_local_images] works with (lines 65-72 and 82). *)
Definition local_output_dir (W : World) : string :=
  os_path_join (os_getcwd W) "local_outputs".
Definition local_rgb (W : World) : string :=
  os_path_abspath W
    (os_path_join (os_path_join (os_getcwd W) "local_test_data")
                  "test_rgb.jpg").
Definition local_nir (W : World) : string :=
  os_path_abspath W
    (os_path_join (os_path_join (os_getcwd W) "local_test_data")
                  "test_nir.jpg").
Definition local_output (W : World) (job_id : string) : string :=
  os_path_abspath W
    (os_path_join (local_output_dir W) ("local_map_" +:+ job_id +:+ ".png")).

(** The filesystem at the fixture check of line 75, that is, after line 68
    has prepared the output directory. *)
Definition at_fixture_check (W : World) (f : filesystem) : filesystem :=
  fs_after (os_makedirs (local_output_dir W)) f.

(** [needle in hay] on strings. *)
Fixpoint mentions (needle hay : string) : bool :=
  String.prefix needle hay ||
  match hay with
  | EmptyString => false
  | String _ rest => mentions needle rest
  end.

(** The three paths handed to the computation: RGB input, NIR input, output
    destination (lines 89 and 144). *)
Definition computation_arguments (W : World) (m : mode) (job_id : string)
  : string * string * string :=
  match m with
  | Local => (local_rgb W, local_nir W, local_output W job_id)
  | Remote _ =>
      let temp_dir := workspace_path (os_getcwd W) job_id in
      (os_path_abspath W (os_path_join temp_dir "input_rgb.png"),
       os_path_abspath W (os_path_join temp_dir "input_nir.png"),
       os_path_abspath W (os_path_join temp_dir (output_filename job_id)))
  end.

Definition expected_command (W : World) (m : mode) (job_id : string)
  : string :=
  let '(rgb, nir, out) := computation_arguments W m job_id in
  matlab_command (os_getcwd W) rgb nir out.

(** Both inputs are there: in local mode the output directory could be
    prepared and the two fixtures pass the check of line 75; in remote mode
    the two downloads were made and each returned bytes. *)
Definition inputs_acquired (W : World) (m : mode) (job_id : string)
    (f : filesystem) : Prop :=
  match m with
  | Local =>
      is_file f (local_output_dir W) = false /\
      path_exists (at_fixture_check W f) (local_rgb W) = true /\
      path_exists (at_fixture_check W f) (local_nir W) = true
  | Remote request =>
      exists b1 b2,
        downloads (trace_of (generate_map W request job_id) f) =
          [(BUCKET_NAME, rgb_image_path request, inr (PyBytes b1));
           (BUCKET_NAME, nir_image_path request, inr (PyBytes b2))]
  end.

(** A handler keeps the directories of the filesystem it starts from. *)
Definition keeps_dirs {A : Type} (m : M A) : Prop :=
  forall s r s', m s = (r, s') ->
  forall q, fs s !! q = Some Dir -> fs s' !! q = Some Dir.

(** ** Sample worlds, used to run the handlers on concrete inputs *)

Module Sample.

(** [str(e)]: Starlette's [HTTPException.__str__] gives "status: detail";
    the other exceptions print their message. *)
Definition str (e : exn) : string :=
  match e with
  | HTTPException s d => pretty s +:+ ": " +:+ d
  | RequestValidationError => "validation error"
  | FileExistsError p => "File exists: " +:+ p
  | FileNotFoundError p => "No such file or directory: " +:+ p
  | IsADirectoryError p => "Is a directory: " +:+ p
  | NotADirectoryError p => "Not a directory: " +:+ p
  | TypeError => "a bytes-like object is required, not 'NoneType'"
  | CollaboratorError m => m
  end.

Definition url (bucket path : string) : string :=
  "https://storage.example/" +:+ bucket +:+ "/" +:+ path.

Definition png : bytes := [Byte.x89; Byte.x50; Byte.x4e; Byte.x47].

(** Everything works: downloads return bytes, MATLAB exits with 0 and
    writes its output, the upload and the URL resolution succeed. *)
Definition healthy : World :=
  mkWorld "secret" "/srv/app" (fun p => p) str
    (fun _ _ _ => inr (PyBytes png))
    (fun _ _ _ _ _ => None)
    (fun _ b p => inr (url b p))
    (fun _ _ _ => (mkCompletedProcess 0 "done" EmptyString, Some png)).

(** MATLAB exits with status 1 and writes nothing. *)
Definition matlab_fails (out err : string) : World :=
  mkWorld "secret" "/srv/app" (fun p => p) str
    (fun _ _ _ => inr (PyBytes png))
    (fun _ _ _ _ _ => None)
    (fun _ b p => inr (url b p))
    (fun _ _ _ => (mkCompletedProcess 1 out err, None)).

(** The storage service answers every download with [res]. *)
Definition storage_answers (res : exn + py_value) : World :=
  mkWorld "secret" "/srv/app" (fun p => p) str
    (fun _ _ _ => res)
    (fun _ _ _ _ _ => None)
    (fun _ b p => inr (url b p))
    (fun _ _ _ => (mkCompletedProcess 0 "done" EmptyString, Some png)).


(** The upload is refused. *)
Definition upload_fails : World :=
  mkWorld "secret" "/srv/app" (fun p => p) str
    (fun _ _ _ => inr (PyBytes png))
    (fun _ _ _ _ _ => Some (CollaboratorError "bucket is read-only"))
    (fun _ b p => inr (url b p))
    (fun _ _ _ => (mkCompletedProcess 0 "done" EmptyString, Some png)).

(** The public URL cannot be resolved. *)
Definition url_fails : World :=
  mkWorld "secret" "/srv/app" (fun p => p) str
    (fun _ _ _ => inr (PyBytes png))
    (fun _ _ _ _ _ => None)
    (fun _ _ _ => inl (CollaboratorError "no public url"))
    (fun _ _ _ => (mkCompletedProcess 0 "done" EmptyString, Some png)).

(** MATLAB exits with status 0 but writes no output file. *)
Definition matlab_writes_nothing : World :=
  mkWorld "secret" "/srv/app" (fun p => p) str
    (fun _ _ _ => inr (PyBytes png))
    (fun _ _ _ _ _ => None)
    (fun _ b p => inr (url b p))
    (fun _ _ _ => (mkCompletedProcess 0 "done" EmptyString, None)).

Definition request : ImageProcessRequest :=
  mkImageProcessRequest "fields/7/rgb.png" "fields/7/nir.png".

Definition job : string := "1b4e28ba-2fa1-41d2-883f-0016d3cca427".

(** A project directory holding the two local fixtures. *)
Definition fixtures : filesystem :=
  <["/srv/app/local_test_data/test_rgb.jpg" := File png]>
    (<["/srv/app/local_test_data/test_nir.jpg" := File png]>
       (<["/srv/app/local_test_data" := Dir]> ∅)).

End Sample.


Definition sample_command : string :=
  matlab_command "/srv/app"
    ("/srv/app/temp_" +:+ Sample.job +:+ "/input_rgb.png")
    ("/srv/app/temp_" +:+ Sample.job +:+ "/input_nir.png")
    ("/srv/app/temp_" +:+ Sample.job +:+ "/stress_map_" +:+ Sample.job +:+
     ".png").

(** Two request bodies. *)
Definition body_without_nir : gmap string string :=
  <["rgb_image_path" := "fields/7/rgb.png"]> ∅.

Definition body_with_empty_rgb : gmap string string :=
  <["rgb_image_path" := EmptyString]>
    (<["nir_image_path" := "fields/7/nir.png"]> ∅).

(** ** Stages of a remote job *)

Inductive stage : Type :=
| Download
| Compute
| Upload
| Publish.

Definition stage_of (ev : event) : stage :=
  match ev with
  | EvDownload _ _ _ => Download
  | EvRun _ _ => Compute
  | EvUpload _ _ _ _ _ => Upload
  | EvPublicUrl _ _ _ => Publish
  end.

(** The calls of a complete remote job, in the order of lines 131-164. *)
Definition remote_stages : list stage :=
  [Download; Download; Compute; Upload; Publish].

(** The call let the job go on: a download returned bytes, the computation
    exited with status 0, the upload or the URL resolution did not raise. *)
Definition succeeded (ev : event) : bool :=
  match ev with
  | EvDownload _ _ (inr (PyBytes _)) => true
  | EvDownload _ _ _ => false
  | EvRun _ process => Z.eqb (returncode process) 0
  | EvUpload _ _ _ _ None => true
  | EvUpload _ _ _ _ (Some _) => false
  | EvPublicUrl _ _ (inr _) => true
  | EvPublicUrl _ _ (inl _) => false
  end.

(** The contents handed to the upload calls. *)
Fixpoint uploaded (tr : list event) : list bytes :=
  match tr with
  | [] => []
  | EvUpload _ _ c _ _ :: r => c :: uploaded r
  | _ :: r => uploaded r
  end.

(** The paths of a remote job inside its workspace (lines 127, 128, 139). *)
Definition remote_rgb (W : World) (job_id : string) : string :=
  os_path_join (workspace_path (os_getcwd W) job_id) "input_rgb.png".
Definition remote_nir (W : World) (job_id : string) : string :=
  os_path_join (workspace_path (os_getcwd W) job_id) "input_nir.png".
Definition remote_output (W : World) (job_id : string) : string :=
  os_path_join (workspace_path (os_getcwd W) job_id) (output_filename job_id).



(** A handler changes the filesystem at most at the paths in [P]. *)
Definition changes_only {A : Type} (P : string -> Prop) (m : M A) : Prop :=
  forall s r s', m s = (r, s') ->
  forall q, ~ P q -> fs s' !! q = fs s !! q.

(** ** Proof infrastructure *)

(** Case analysis on the innermost scrutinee of the goal. *)
Ltac case_step :=
  match goal with
  | |- context [match ?x with _ => _ end] =>
      lazymatch x with
      | context [match _ with _ => _ end] => fail
      | _ => destruct x eqn:?
      end
  | |- context [if ?x then _ else _] =>
      lazymatch x with
      | context [match _ with _ => _ end] => fail
      | _ => destruct x eqn:?
      end
  end.

Ltac unfold_monad :=
  unfold mbind, mret, M_bind, M_ret, raise, try_except, try_finally,
    get_fs, get_trace, put_fs, emit in *.

Ltac run_handlers :=
  unfold generate_map_try, generate_map_body, generate_map_except,
    process_local_images, download, upload, get_public_url, run_command,
    check_returncode, open_wb, open_rb, file_write, os_path_exists,
    path_exists, os_makedirs, initial;
  unfold_monad; simpl.

Ltac explore :=
  repeat (rewrite ?lookup_insert_eq; simpl; case_step; simpl).

Ltac finish_leaf :=
  repeat match goal with
         | H : _ \/ _ |- _ => destruct H
         | H : False |- _ => destruct H
         | H : _ /\ _ |- _ => destruct H
         | H : (_, _) = (_, _) |- _ => simplify_eq
         | H : (_ =? _)%Z = true |- _ => apply Z.eqb_eq in H
         | H : (_ =? _)%Z = false |- _ => apply Z.eqb_neq in H
         end;
  subst; simpl in *; try congruence; try tauto; eauto.

Ltac recorded_process :=
  do 2 eexists;
  match goal with
  | H : subprocess_run _ _ _ _ = _ |- _ => rewrite H
  end; reflexivity.

(** *** Strings and paths *)

Lemma append_inj_l (s a b : string) : s +:+ a = s +:+ b -> a = b.
Proof.
  induction s as [|c s IH]; intros H; [exact H|].
  change (String c (s +:+ a) = String c (s +:+ b)) in H.
  injection H as H. auto.
Qed.

Lemma append_assoc (a b c : string) : (a +:+ b) +:+ c = a +:+ (b +:+ c).
Proof.
  induction a as [|x a IH]; [reflexivity|].
  change (String x ((a +:+ b) +:+ c) = String x (a +:+ (b +:+ c))).
  now rewrite IH.
Qed.

Lemma workspace_path_cases (cwd : string) :
  exists pre, forall job_id, workspace_path cwd job_id = pre +:+ job_id.
Proof.
  unfold workspace_path, os_path_join.
  destruct cwd as [|c cwd].
  - exists "temp_". reflexivity.
  - destruct (endswith_sep (String c cwd)).
    + exists (String c cwd +:+ "temp_"). intros j.
      rewrite append_assoc. reflexivity.
    + exists (String c cwd +:+ "/temp_"). intros j.
      rewrite append_assoc. reflexivity.
Qed.

Lemma append_nil_r (s : string) : s +:+ EmptyString = s.
Proof.
  induction s as [|c s IH]; [reflexivity|].
  change (String c (s +:+ EmptyString) = String c s). now rewrite IH.
Qed.

Lemma append_length (a b : string) :
  String.length (a +:+ b) = (String.length a + String.length b)%nat.
Proof.
  induction a as [|c a IH]; [reflexivity|].
  change (S (String.length (a +:+ b)) =
          S (String.length a + String.length b))%nat.
  now rewrite IH.
Qed.

Lemma append_inj_r (a b s : string) : a +:+ s = b +:+ s -> a = b.
Proof.
  revert b. induction a as [|c a IH]; intros [|d b] H.
  - reflexivity.
  - apply (f_equal String.length) in H. rewrite !append_length in H.
    simpl in H. lia.
  - apply (f_equal String.length) in H. rewrite !append_length in H.
    simpl in H. lia.
  - change (String c (a +:+ s) = String d (b +:+ s)) in H.
    injection H as -> H. f_equal. now apply IH.
Qed.

Lemma append_not_longer (s x : string) : s +:+ x = s -> x = EmptyString.
Proof.
  intros H. apply (append_inj_l s). now rewrite append_nil_r.
Qed.

(** Joining relative names to one directory: the separator depends on the
    directory only. *)
Lemma os_path_join_relative (a : string) :
  exists sep, forall b,
    startswith_sep b = false -> os_path_join a b = a +:+ sep +:+ b.
Proof.
  unfold os_path_join. destruct a as [|c a].
  - exists EmptyString. intros b ->. reflexivity.
  - destruct (endswith_sep (String c a)).
    + exists EmptyString. intros b ->. reflexivity.
    + exists "/". intros b ->. reflexivity.
Qed.

Lemma os_path_join_inj (a b c : string) :
  startswith_sep b = false -> startswith_sep c = false ->
  os_path_join a b = os_path_join a c -> b = c.
Proof.
  intros Hb Hc. destruct (os_path_join_relative a) as [sep Hsep].
  rewrite (Hsep b Hb), (Hsep c Hc). intros H.
  apply append_inj_l in H. now apply append_inj_l in H.
Qed.

Lemma os_path_join_proper (a b : string) :
  startswith_sep b = false -> b <> EmptyString -> os_path_join a b <> a.
Proof.
  intros Hb Hne. destruct (os_path_join_relative a) as [sep Hsep].
  rewrite (Hsep b Hb). intros H. apply append_not_longer in H.
  destruct sep as [|c sep]; [exact (Hne H) | discriminate H].
Qed.

Lemma remote_paths_distinct (W : World) (job_id : string) :
  remote_rgb W job_id <> remote_nir W job_id /\
  remote_output W job_id <> remote_rgb W job_id /\
  remote_output W job_id <> remote_nir W job_id /\
  remote_output W job_id <> workspace_path (os_getcwd W) job_id.
Proof.
  unfold remote_rgb, remote_nir, remote_output, output_filename.
  repeat split.
  - intros H. apply os_path_join_inj in H; [discriminate H | reflexivity ..].
  - intros H. apply os_path_join_inj in H; [discriminate H | reflexivity ..].
  - intros H. apply os_path_join_inj in H; [discriminate H | reflexivity ..].
  - apply os_path_join_proper; [reflexivity | discriminate].
Qed.

(** *** The filesystem primitives *)

Lemma within_refl (p : string) : within p p = true.
Proof. unfold within. now rewrite String.eqb_refl. Qed.

Lemma rmtree_lookup (f : filesystem) (p q : string) :
  within p q = true ->
  filter (fun kv : string * node => within p kv.1 = false) f !! q = None.
Proof.
  intros Hq. apply map_lookup_filter_None. right. intros x _. simpl.
  rewrite Hq. discriminate.
Qed.

Lemma cleanup_absent (p : string) (s : state) :
  fs s !! p = None -> cleanup p s = (Returned tt, s).
Proof.
  intros H. unfold cleanup, os_path_exists, path_exists. unfold_monad.
  rewrite H. reflexivity.
Qed.

Lemma cleanup_dir (p : string) (s : state) :
  fs s !! p = Some Dir ->
  cleanup p s =
    (Returned tt,
     mkState (filter (fun kv : string * node => within p kv.1 = false) (fs s))
             (trace s)).
Proof.
  intros H. unfold cleanup, os_path_exists, path_exists, shutil_rmtree.
  unfold_monad. simpl. rewrite H. simpl. rewrite ?H. reflexivity.
Qed.

Lemma cleanup_file (p : string) (s : state) (b : bytes) :
  fs s !! p = Some (File b) -> cleanup p s = (Raised (NotADirectoryError p), s).
Proof.
  intros H. unfold cleanup, os_path_exists, path_exists, shutil_rmtree.
  unfold_monad. simpl. rewrite H. simpl. rewrite ?H. reflexivity.
Qed.

(** *** Directories survive everything but [shutil.rmtree] *)

Lemma keeps_dirs_ret {A : Type} (a : A) : keeps_dirs (mret a).
Proof. intros s r s' H q Hq. injection H as _ <-. exact Hq. Qed.

Lemma keeps_dirs_raise {A : Type} (e : exn) : keeps_dirs (@raise A e).
Proof. intros s r s' H q Hq. injection H as _ <-. exact Hq. Qed.

Lemma keeps_dirs_bind {A B : Type} (m : M A) (k : A -> M B) :
  keeps_dirs m -> (forall a, keeps_dirs (k a)) -> keeps_dirs (m ≫= k).
Proof.
  intros Hm Hk s r s' H q Hq. unfold mbind, M_bind in H.
  destruct (m s) as [[a|e] s1] eqn:E.
  - eapply Hk; [exact H|]. eapply Hm; [exact E | exact Hq].
  - injection H as _ <-. eapply Hm; [exact E | exact Hq].
Qed.

Lemma keeps_dirs_try_except {A : Type} (m : M A) (h : exn -> M A) :
  keeps_dirs m -> (forall e, keeps_dirs (h e)) -> keeps_dirs (try_except m h).
Proof.
  intros Hm Hh s r s' H q Hq. unfold try_except in H.
  destruct (m s) as [[a|e] s1] eqn:E.
  - injection H as _ <-. eapply Hm; [exact E | exact Hq].
  - eapply Hh; [exact H|]. eapply Hm; [exact E | exact Hq].
Qed.

Lemma keeps_dirs_emit (ev : event) : keeps_dirs (emit ev).
Proof. intros s r s' H q Hq. injection H as _ <-. exact Hq. Qed.

Lemma insert_file_keeps (f : filesystem) (p q : string) (b : bytes) :
  f !! p <> Some Dir -> f !! q = Some Dir -> <[p := File b]> f !! q = Some Dir.
Proof.
  intros Hp Hq. destruct (decide (p = q)) as [->|Hne].
  - contradiction.
  - now rewrite lookup_insert_ne.
Qed.

Lemma keeps_dirs_open_wb (p : string) : keeps_dirs (open_wb p).
Proof.
  intros s r s' H q Hq. unfold open_wb in H. unfold_monad. simpl in H.
  destruct (fs s !! p) as [[|b]|] eqn:E; injection H as _ <-; simpl;
    try exact Hq; apply insert_file_keeps; congruence.
Qed.

Lemma keeps_dirs_open_rb (p : string) : keeps_dirs (open_rb p).
Proof.
  intros s r s' H q Hq. unfold open_rb in H. unfold_monad. simpl in H.
  destruct (fs s !! p) as [[|b]|] eqn:E; injection H as _ <-; exact Hq.
Qed.

Lemma keeps_dirs_makedirs (p : string) : keeps_dirs (os_makedirs p).
Proof.
  intros s r s' H q Hq. unfold os_makedirs in H. unfold_monad. simpl in H.
  destruct (fs s !! p) as [[|b]|] eqn:E; injection H as _ <-; simpl;
    try exact Hq.
  destruct (decide (p = q)) as [->|Hne]; [congruence|].
  now rewrite lookup_insert_ne.
Qed.

Lemma write_output_keeps (f : filesystem) (out : string) (w : option bytes)
    (q : string) :
  f !! q = Some Dir -> write_output f out w !! q = Some Dir.
Proof.
  intros Hq. unfold write_output. destruct w as [b|]; [|exact Hq].
  destruct (f !! out) as [[|c]|] eqn:E; try exact Hq;
    apply insert_file_keeps; congruence.
Qed.

Section KeepsDirs.

Context (W : World).

Lemma keeps_dirs_download (b p : string) : keeps_dirs (download W b p).
Proof.
  intros s r s' H q Hq. unfold download in H. unfold_monad. simpl in H.
  destruct (storage_download W (trace s) b p); injection H as _ <-; exact Hq.
Qed.

Lemma keeps_dirs_upload (b p : string) (c : bytes) (t : string) :
  keeps_dirs (upload W b p c t).
Proof.
  intros s r s' H q Hq. unfold upload in H. unfold_monad. simpl in H.
  destruct (storage_upload W (trace s) b p c t); injection H as _ <-;
    exact Hq.
Qed.

Lemma keeps_dirs_get_public_url (b p : string) :
  keeps_dirs (get_public_url W b p).
Proof.
  intros s r s' H q Hq. unfold get_public_url in H. unfold_monad.
  simpl in H.
  destruct (storage_get_public_url W (trace s) b p); injection H as _ <-;
    exact Hq.
Qed.

Lemma keeps_dirs_file_write (p : string) (v : py_value) :
  keeps_dirs (file_write p v).
Proof.
  intros s r s' H q Hq. unfold file_write in H. unfold_monad.
  destruct v as [|b]; simpl in H; [injection H as _ <-; exact Hq|].
  destruct (fs s !! p) as [[|c]|] eqn:E; injection H as _ <-; simpl;
    try exact Hq.
  apply insert_file_keeps; congruence.
Qed.

Lemma keeps_dirs_run_command (command out : string) :
  keeps_dirs (run_command W command out).
Proof.
  intros s r s' H q Hq. unfold run_command in H. unfold_monad. simpl in H.
  destruct (subprocess_run W (trace s) command (fs s)) as [process written].
  simpl in H. injection H as _ <-. simpl. now apply write_output_keeps.
Qed.

Lemma keeps_dirs_check_returncode (process : CompletedProcess) :
  keeps_dirs (check_returncode process).
Proof.
  unfold check_returncode. destruct (returncode process =? 0)%Z;
    [apply keeps_dirs_ret | apply keeps_dirs_raise].
Qed.

Create HintDb keeps.

#[local] Hint Resolve keeps_dirs_ret keeps_dirs_raise keeps_dirs_emit
  keeps_dirs_open_wb keeps_dirs_open_rb keeps_dirs_makedirs
  keeps_dirs_download keeps_dirs_upload keeps_dirs_get_public_url
  keeps_dirs_file_write keeps_dirs_run_command keeps_dirs_check_returncode
  : keeps.

Ltac keeps_dirs_tac :=
  repeat first
    [ solve [auto with keeps]
    | apply keeps_dirs_try_except; [| intros ?]
    | apply keeps_dirs_bind; [| intros ?] ].

Lemma keeps_dirs_generate_map_try (request : ImageProcessRequest)
    (job_id temp_dir : string) :
  keeps_dirs (generate_map_try W request job_id temp_dir).
Proof.
  unfold generate_map_try, generate_map_body, generate_map_except.
  cbv zeta. keeps_dirs_tac.
Qed.

(** [generate_map] when the workspace path is occupied by a regular file:
    [os.makedirs] raises before the [try] is entered. *)
Lemma generate_map_blocked (request : ImageProcessRequest) (job_id : string)
    (s : state) :
  is_file (fs s) (workspace_path (os_getcwd W) job_id) = true ->
  generate_map W request job_id s =
    (Raised (FileExistsError (workspace_path (os_getcwd W) job_id)), s).
Proof.
  unfold is_file, generate_map, os_makedirs. unfold_monad. simpl.
  destruct (fs s !! workspace_path (os_getcwd W) job_id) as [[|b]|];
    intros H; try discriminate. reflexivity.
Qed.

(** [generate_map] once the workspace exists: the outcome is the one of the
    [try]/[except], and the [finally] clause removes the workspace tree. *)
Lemma generate_map_created (request : ImageProcessRequest) (job_id : string)
    (s : state) :
  let temp_dir := workspace_path (os_getcwd W) job_id in
  is_file (fs s) temp_dir = false ->
  exists s1 r s2,
    os_makedirs temp_dir s = (Returned tt, s1) /\
    trace s1 = trace s /\
    fs s1 !! temp_dir = Some Dir /\
    generate_map_try W request job_id temp_dir s1 = (r, s2) /\
    generate_map W request job_id s =
      (r, mkState (filter (fun kv : string * node =>
                             within temp_dir kv.1 = false) (fs s2))
                  (trace s2)).
Proof.
  intros temp_dir Hfile.
  assert (Hmk : exists s1, os_makedirs temp_dir s = (Returned tt, s1) /\
                           trace s1 = trace s /\ fs s1 !! temp_dir = Some Dir).
  { unfold is_file in Hfile. unfold os_makedirs. unfold_monad. simpl.
    destruct (fs s !! temp_dir) as [[|b]|] eqn:E; try discriminate.
    - exists s. auto.
    - eexists. split; [reflexivity|]. split; [reflexivity|]. simpl.
      apply lookup_insert_eq. }
  destruct Hmk as (s1 & Hmk & Htr & Hdir).
  destruct (generate_map_try W request job_id temp_dir s1) as [r s2] eqn:Etry.
  exists s1, r, s2. repeat split; auto.
  assert (Hdir2 : fs s2 !! temp_dir = Some Dir).
  { eapply keeps_dirs_generate_map_try; [exact Etry | exact Hdir]. }
  unfold generate_map. fold temp_dir. unfold mbind at 1. unfold M_bind at 1.
  rewrite Hmk. unfold try_finally.
  rewrite Etry.
  rewrite cleanup_dir by exact Hdir2. reflexivity.
Qed.

End KeepsDirs.

(** *** What [generate_map] leaves behind *)

Lemma generate_map_leaves_nothing (W : World)
    (request : ImageProcessRequest) (job_id : string) (f : filesystem) :
  let temp_dir := workspace_path (os_getcwd W) job_id in
  let f' := fs_after (generate_map W request job_id) f in
  is_dir f' temp_dir = false /\
  (is_file f temp_dir = false ->
   path_exists f' temp_dir = false /\
   forall q, within temp_dir q = true -> f' !! q = None).
Proof.
  intros temp_dir f'. subst f'. unfold fs_after.
  destruct (is_file f temp_dir) eqn:Hfile.
  - split; [|discriminate].
    unfold temp_dir. rewrite generate_map_blocked by exact Hfile. simpl.
    unfold is_file in Hfile. unfold is_dir.
    fold temp_dir. destruct (f !! temp_dir) as [[|b]|]; congruence.
  - destruct (generate_map_created W request job_id (initial f) Hfile)
      as (s1 & r & s2 & _ & _ & _ & _ & Hrun).
    rewrite Hrun. simpl. unfold is_dir, path_exists.
    rewrite !rmtree_lookup by apply within_refl.
    split; [reflexivity|]. intros _. split; [reflexivity|].
    intros q Hq. now apply rmtree_lookup.
Qed.

(** What a run of [generate_map] amounts to, as seen by its caller: either
    the workspace could not be created and nothing happened, or the outcome
    and the trace are those of the [try]/[except]. *)
Lemma generate_map_outcome (W : World) (request : ImageProcessRequest)
    (job_id : string) (f : filesystem) :
  let temp_dir := workspace_path (os_getcwd W) job_id in
  (is_file f temp_dir = true /\
   result_of (generate_map W request job_id) f =
     Raised (FileExistsError temp_dir) /\
   trace_of (generate_map W request job_id) f = []) \/
  (is_file f temp_dir = false /\
   exists f1 r s2,
     generate_map_try W request job_id temp_dir (mkState f1 []) = (r, s2) /\
     (f1 = f \/ f1 = <[temp_dir := Dir]> f) /\
     result_of (generate_map W request job_id) f = r /\
     trace_of (generate_map W request job_id) f = trace s2).
Proof.
  intros temp_dir. unfold result_of, trace_of.
  destruct (is_file f temp_dir) eqn:Hfile.
  - left. unfold temp_dir.
    rewrite generate_map_blocked by exact Hfile. auto.
  - right. split; [reflexivity|].
    destruct (generate_map_created W request job_id (initial f) Hfile)
      as (s1 & r & s2 & Hmk & Htr & _ & Htry & Hrun).
    fold temp_dir in Hmk, Htry, Hrun.
    destruct s1 as [f1 t1]. simpl in Htr. subst t1.
    exists f1, r, s2. rewrite Hrun. simpl. repeat split; auto.
    revert Hmk. run_handlers. explore; intros [= <-]; auto.
Qed.

(** *** Failure of the external computation *)



(** *** Failure of a download *)

Lemma generate_map_try_download_failed (W : World)
    (request : ImageProcessRequest) (job_id temp_dir : string)
    (f1 : filesystem) (r : outcome response) (s2 : state)
    (b p : string) (res : exn + py_value) :
  generate_map_try W request job_id temp_dir (mkState f1 []) = (r, s2) ->
  In (b, p, res) (downloads (trace s2)) ->
  download_failed res ->
  r = Raised (HTTPException 500 (py_str W (download_error res))) /\
  b = BUCKET_NAME /\
  (p = rgb_image_path request \/ p = nir_image_path request) /\
  invocations (trace s2) = [] /\
  uploads (trace s2) = [] /\
  publications (trace s2) = [].
Proof.
  run_handlers. explore; intros [= <- <-]; simpl; intros Hin Hres;
    finish_leaf.
Qed.

(** *** Invocation of the external computation *)

Lemma generate_map_try_invocations (W : World) (request : ImageProcessRequest)
    (job_id : string) (f1 : filesystem) (r : outcome response) (s2 : state) :
  generate_map_try W request job_id (workspace_path (os_getcwd W) job_id)
    (mkState f1 []) = (r, s2) ->
  (length (invocations (trace s2)) <= 1)%nat /\
  (forall command process,
     In (command, process) (invocations (trace s2)) ->
     command = expected_command W (Remote request) job_id /\
     exists history f0, process = (subprocess_run W history command f0).1) /\
  (forall b1 b2,
     downloads (trace s2) =
       [(BUCKET_NAME, rgb_image_path request, inr (PyBytes b1));
        (BUCKET_NAME, nir_image_path request, inr (PyBytes b2))] ->
     length (invocations (trace s2)) = 1%nat).
Proof.
  unfold expected_command, computation_arguments.
  run_handlers. explore; intros [= <- <-]; simpl;
    (split; [lia|]); split;
    try (intros ? ? Hin; finish_leaf; split; [reflexivity | recorded_process]);
    try (intros ? ? Hdl; finish_leaf).
Qed.

Lemma process_local_images_invocations (W : World) (job_id : string)
    (f : filesystem) :
  let tr := trace_of (process_local_images W job_id) f in
  (length (invocations tr) <= 1)%nat /\
  (forall command process,
     In (command, process) (invocations tr) ->
     command = expected_command W Local job_id /\
     exists history f0, process = (subprocess_run W history command f0).1) /\
  (inputs_acquired W Local job_id f -> length (invocations tr) = 1%nat).
Proof.
  unfold expected_command, computation_arguments, inputs_acquired,
    at_fixture_check, fs_after, trace_of, local_rgb, local_nir, local_output,
    local_output_dir, is_file.
  run_handlers. explore;
    (split; [lia|]); split;
    try (intros ? ? Hin; finish_leaf; split; [reflexivity | recorded_process]);
    try (intros Hacq; finish_leaf).
Qed.

(** *** Publication in remote mode *)


(** The command line of lines 86-90 and 141-145, character by character. *)
Lemma expected_command_text (W : World) (m : mode) (job_id : string) :
  let '(rgb, nir, out) := computation_arguments W m job_id in
  expected_command W m job_id =
    "matlab -batch " +:+
    String "034"%char
      ("cd '" +:+ os_getcwd W +:+ "'; runner('" +:+ rgb +:+ "', '" +:+ nir +:+
       "', '" +:+ out +:+ "')" +:+ String "034"%char EmptyString).
Proof. destruct m; reflexivity. Qed.



Lemma try_entry_lookup (f f1 : filesystem) (temp_dir q : string) :
  f1 = f \/ f1 = <[temp_dir := Dir]> f ->
  q <> temp_dir -> f !! q = None -> f1 !! q = None.
Proof.
  intros [-> | ->] Hq Hf; [exact Hf|].
  rewrite lookup_insert_ne by (apply not_eq_sym; exact Hq). exact Hf.
Qed.

(** ** The exit paths of [generate_map] on the sample worlds

    Each run starts from an empty filesystem and ends with an empty one: the
    workspace and the files put into it are gone. *)

Example run_published :
  generate_map Sample.healthy Sample.request Sample.job (initial ∅) =
    (Returned [("message", "Stress map generated successfully!");
               ("output_url",
                "https://storage.example/vegetation-maps/outputs/stress_map_"
                +:+ Sample.job +:+ ".png")],
     mkState ∅
       [EvDownload BUCKET_NAME "fields/7/rgb.png" (inr (PyBytes Sample.png));
        EvDownload BUCKET_NAME "fields/7/nir.png" (inr (PyBytes Sample.png));
        EvRun sample_command (mkCompletedProcess 0 "done" EmptyString);
        EvUpload BUCKET_NAME (output_storage_path Sample.job) Sample.png
                 "image/png" None;
        EvPublicUrl BUCKET_NAME (output_storage_path Sample.job)
          (inr (Sample.url BUCKET_NAME (output_storage_path Sample.job)))]).
Proof. vm_compute. reflexivity. Qed.

Example run_download_raises :
  generate_map (Sample.storage_answers (inl (CollaboratorError "not found")))
    Sample.request Sample.job (initial ∅) =
    (Raised (HTTPException 500 "not found"),
     mkState ∅
       [EvDownload BUCKET_NAME "fields/7/rgb.png"
          (inl (CollaboratorError "not found"))]).
Proof. vm_compute. reflexivity. Qed.

Example run_download_returns_nothing :
  generate_map (Sample.storage_answers (inr PyNone))
    Sample.request Sample.job (initial ∅) =
    (Raised (HTTPException 500
               "a bytes-like object is required, not 'NoneType'"),
     mkState ∅ [EvDownload BUCKET_NAME "fields/7/rgb.png" (inr PyNone)]).
Proof. vm_compute. reflexivity. Qed.

Example run_matlab_fails :
  generate_map (Sample.matlab_fails "out" EmptyString) Sample.request
    Sample.job (initial ∅) =
    (Raised (HTTPException 500 "500: MATLAB execution failed: out"),
     mkState ∅
       [EvDownload BUCKET_NAME "fields/7/rgb.png" (inr (PyBytes Sample.png));
        EvDownload BUCKET_NAME "fields/7/nir.png" (inr (PyBytes Sample.png));
        EvRun sample_command (mkCompletedProcess 1 "out" EmptyString)]).
Proof. vm_compute. reflexivity. Qed.

Example run_output_missing :
  result_of (generate_map Sample.matlab_writes_nothing Sample.request
               Sample.job) ∅ =
    Raised (HTTPException 500
              ("No such file or directory: /srv/app/temp_" +:+ Sample.job +:+
               "/stress_map_" +:+ Sample.job +:+ ".png")) /\
  fs_after (generate_map Sample.matlab_writes_nothing Sample.request
              Sample.job) ∅ = ∅.
Proof. split; vm_compute; reflexivity. Qed.

Example run_upload_fails :
  result_of (generate_map Sample.upload_fails Sample.request Sample.job) ∅ =
    Raised (HTTPException 500 "bucket is read-only") /\
  publications
    (trace_of (generate_map Sample.upload_fails Sample.request Sample.job) ∅)
    = [] /\
  fs_after (generate_map Sample.upload_fails Sample.request Sample.job) ∅ = ∅.
Proof. repeat split; vm_compute; reflexivity. Qed.

Example run_url_fails :
  result_of (generate_map Sample.url_fails Sample.request Sample.job) ∅ =
    Raised (HTTPException 500 "no public url") /\
  fs_after (generate_map Sample.url_fails Sample.request Sample.job) ∅ = ∅.
Proof. split; vm_compute; reflexivity. Qed.


(** ** The claims *)

(** C1. After every execution of [generate_map], whatever the storage
    service, the external computation and the other collaborators do
    (normal completion, a failed download, a non-zero exit, a failed upload
    or URL resolution, any other exception), no directory is left at the
    job's workspace path [temp_{job_id}]; and when the job could create its
    workspace (the path was not occupied by a regular file), nothing at all
    remains at the workspace path or below it. *)
Theorem generate_map_workspace_removed (W : World)
    (request : ImageProcessRequest) (job_id : string) (f : filesystem) :
  let temp_dir := workspace_path (os_getcwd W) job_id in
  let f' := fs_after (generate_map W request job_id) f in
  is_dir f' temp_dir = false /\
  (is_file f temp_dir = false ->
   path_exists f' temp_dir = false /\
   forall q, within temp_dir q = true -> f' !! q = None).
Proof. apply generate_map_leaves_nothing. Qed.

Lemma generate_map_workspace_removed_witness :
  path_exists
    (fs_after (generate_map Sample.healthy Sample.request Sample.job) ∅)
    (workspace_path "/srv/app" Sample.job) = false.
Proof.
  apply (generate_map_workspace_removed Sample.healthy Sample.request
           Sample.job ∅).
  reflexivity.
Defined.




(** C3 (as amended).  In remote mode, if a storage download of the job,
    which is the download of one of its two inputs from the bucket, raises
    or returns no value, the job fails with an HTTP 500 error whose detail
    is the string form of the exception the download raised (of the
    [TypeError] of the write, when it returned no value); the external
    computation is never invoked, nothing is uploaded or published, and the
    workspace no longer exists afterwards. *)
Theorem failed_download_aborts_job (W : World) (request : ImageProcessRequest)
    (job_id : string) (f : filesystem) (b p : string)
    (res : exn + py_value) :
  let temp_dir := workspace_path (os_getcwd W) job_id in
  let run := generate_map W request job_id in
  In (b, p, res) (downloads (trace_of run f)) ->
  download_failed res ->
  result_of run f =
    Raised (HTTPException 500 (py_str W (download_error res))) /\
  b = BUCKET_NAME /\
  (p = rgb_image_path request \/ p = nir_image_path request) /\
  invocations (trace_of run f) = [] /\
  uploads (trace_of run f) = [] /\
  publications (trace_of run f) = [] /\
  path_exists (fs_after run f) temp_dir = false.
Proof.
  intros temp_dir run Hin Hfail. subst run.
  destruct (generate_map_leaves_nothing W request job_id f) as [_ Hgone].
  fold temp_dir in Hgone.
  destruct (generate_map_outcome W request job_id f)
    as [(_ & _ & Htr) | (Hfile & f1 & r & s2 & Htry & _ & Hres & Htr)];
    fold temp_dir in Htr; rewrite Htr in Hin.
  - destruct Hin.
  - fold temp_dir in Hfile, Htry, Hres. rewrite Hres, Htr.
    destruct (generate_map_try_download_failed W request job_id temp_dir
                f1 r s2 b p res Htry Hin Hfail)
      as (Hr & Hb & Hp & Hi & Hu & Hpub).
    repeat (split; [assumption|]). apply Hgone. exact Hfile.
Qed.

Lemma failed_download_aborts_job_witness :
  result_of (generate_map
               (Sample.storage_answers (inl (CollaboratorError "not found")))
               Sample.request Sample.job) ∅ =
    Raised (HTTPException 500 "not found") /\
  invocations
    (trace_of (generate_map
                 (Sample.storage_answers (inl (CollaboratorError "not found")))
                 Sample.request Sample.job) ∅) = [].
Proof.
  pose proof (failed_download_aborts_job
                (Sample.storage_answers (inl (CollaboratorError "not found")))
                Sample.request Sample.job ∅
                BUCKET_NAME "fields/7/rgb.png"
                (inl (CollaboratorError "not found"))) as H.
  destruct H as (Hres & _ & _ & Hinv & _).
  - vm_compute. left. reflexivity.
  - exact I.
  - split; [exact Hres | exact Hinv].
Defined.

(** C3 as stated does not hold when "no data" is an empty bytes object:
    both downloads return zero bytes, the empty files are written, and the
    external computation is invoked all the same; the job succeeds. *)
Lemma empty_download_still_computes :
  let W := Sample.storage_answers (inr (PyBytes [])) in
  let run := generate_map W Sample.request Sample.job in
  downloads (trace_of run ∅) =
    [(BUCKET_NAME, "fields/7/rgb.png", inr (PyBytes []));
     (BUCKET_NAME, "fields/7/nir.png", inr (PyBytes []))] /\
  invocations (trace_of run ∅) =
    [(sample_command, mkCompletedProcess 0 "done" EmptyString)] /\
  result_of run ∅ =
    Returned [("message", "Stress map generated successfully!");
              ("output_url",
               Sample.url BUCKET_NAME (output_storage_path Sample.job))].
Proof. cbv zeta. repeat split; vm_compute; reflexivity. Qed.

(** C4. In local mode, if either fixture file is absent when the handler
    checks for them, the computation is never invoked, and, the output
    directory having been prepared, the handler fails with an HTTP 404 error
    whose detail names both expected files, [test_rgb.jpg] and
    [test_nir.jpg]. *)
Theorem missing_fixture_is_not_found (W : World) (job_id : string)
    (f : filesystem) :
  let run := process_local_images W job_id in
  path_exists (at_fixture_check W f) (local_rgb W) = false \/
  path_exists (at_fixture_check W f) (local_nir W) = false ->
  invocations (trace_of run f) = [] /\
  trace_of run f = [] /\
  (is_file f (local_output_dir W) = false ->
   exists detail,
     result_of run f = Raised (HTTPException 404 detail) /\
     mentions "test_rgb.jpg" detail = true /\
     mentions "test_nir.jpg" detail = true).
Proof.
  intros run. subst run.
  unfold at_fixture_check, fs_after, result_of, trace_of, local_rgb,
    local_nir, local_output_dir, is_file, path_exists.
  run_handlers. explore; intros Habs; repeat split; try discriminate;
    try (intros _; eexists; split; [reflexivity|]; split; reflexivity);
    finish_leaf.
Qed.

Lemma missing_fixture_is_not_found_witness :
  exists detail,
    result_of (process_local_images Sample.healthy Sample.job) ∅ =
      Raised (HTTPException 404 detail) /\
    mentions "test_rgb.jpg" detail = true /\
    mentions "test_nir.jpg" detail = true.
Proof.
  apply (missing_fixture_is_not_found Sample.healthy Sample.job ∅).
  - left. reflexivity.
  - reflexivity.
Defined.

(** C5. For a given working directory, the workspace path is an injective
    function of the job identifier: two jobs with distinct identifiers get
    distinct workspace paths. *)
Theorem workspace_path_distinct (cwd job1 job2 : string) :
  job1 <> job2 -> workspace_path cwd job1 <> workspace_path cwd job2.
Proof.
  intros Hne Heq. destruct (workspace_path_cases cwd) as [pre Hpre].
  rewrite !Hpre in Heq. apply append_inj_l in Heq. contradiction.
Qed.

Lemma workspace_path_distinct_witness :
  workspace_path "/srv/app" "job-a" <> workspace_path "/srv/app" "job-b".
Proof.
  apply (workspace_path_distinct "/srv/app" "job-a" "job-b").
  discriminate.
Defined.

(** C6 (as amended).  In both modes the external computation is invoked at
    most once per request, and exactly once whenever both inputs have been
    acquired.  Each invocation runs the command line
    [matlab -batch "cd '<cwd>'; runner('<rgb>', '<nir>', '<out>')"], spelled
    out below character by character, where [<cwd>] is the working
    directory of the server and the three arguments are, in this order, the
    absolute paths of the RGB input, of the NIR input and of the output
    destination; the exit status, standard output and standard error that
    the handler goes on with are those the process gave back. *)
Theorem computation_invoked_at_most_once (W : World) (m : mode)
    (job_id : string) (f : filesystem) :
  let tr := trace_of (pipeline W m job_id) f in
  (length (invocations tr) <= 1)%nat /\
  (forall command process,
     In (command, process) (invocations tr) ->
     (let '(rgb, nir, out) := computation_arguments W m job_id in
      command =
        "matlab -batch " +:+
        String "034"%char
          ("cd '" +:+ os_getcwd W +:+ "'; runner('" +:+ rgb +:+ "', '" +:+
           nir +:+ "', '" +:+ out +:+ "')" +:+
           String "034"%char EmptyString)) /\
     exists history f0, process = (subprocess_run W history command f0).1) /\
  (inputs_acquired W m job_id f -> length (invocations tr) = 1%nat).
Proof.
  assert (H : let tr := trace_of (pipeline W m job_id) f in
              (length (invocations tr) <= 1)%nat /\
              (forall command process,
                 In (command, process) (invocations tr) ->
                 command = expected_command W m job_id /\
                 exists history f0,
                   process = (subprocess_run W history command f0).1) /\
              (inputs_acquired W m job_id f ->
               length (invocations tr) = 1%nat)).
  { destruct m as [|request].
    - apply process_local_images_invocations.
    - simpl.
      destruct (generate_map_outcome W request job_id f)
        as [(_ & _ & Htr) | (_ & f1 & r & s2 & Htry & _ & _ & Htr)];
        rewrite Htr.
      + simpl. split; [lia|]. split; [intros ? ? []|].
        intros (b1 & b2 & H). discriminate H.
      + destruct (generate_map_try_invocations W request job_id f1 r s2 Htry)
          as (Hle & Hcmd & Hone).
        split; [exact Hle|]. split; [exact Hcmd|].
        intros (b1 & b2 & H). exact (Hone b1 b2 H). }
  cbv zeta in *. destruct H as (Hle & Hcmd & Hone).
  split; [exact Hle|]. split; [|exact Hone].
  intros command process Hin. destruct (Hcmd command process Hin) as [-> Hp].
  split; [|exact Hp]. apply expected_command_text.
Qed.

Lemma computation_invoked_at_most_once_witness :
  length (invocations
            (trace_of (generate_map Sample.healthy Sample.request Sample.job)
                      ∅)) = 1%nat /\
  invocations
    (trace_of (generate_map Sample.healthy Sample.request Sample.job) ∅) =
    [("matlab -batch " +:+
      String "034"%char
        ("cd '/srv/app'; runner('/srv/app/temp_" +:+ Sample.job +:+
         "/input_rgb.png', '/srv/app/temp_" +:+ Sample.job +:+
         "/input_nir.png', '/srv/app/temp_" +:+ Sample.job +:+
         "/stress_map_" +:+ Sample.job +:+ ".png')" +:+
         String "034"%char EmptyString),
      mkCompletedProcess 0 "done" EmptyString)].
Proof.
  split.
  - apply (computation_invoked_at_most_once Sample.healthy
             (Remote Sample.request) Sample.job ∅).
    exists Sample.png, Sample.png. reflexivity.
  - vm_compute. reflexivity.
Defined.

(** C6 as stated does not hold for every request: when the first download
    raises, and when the local fixtures are missing, the computation is not
    invoked at all. *)
Lemma computation_not_invoked_without_inputs :
  invocations
    (trace_of (pipeline
                 (Sample.storage_answers (inl (CollaboratorError "not found")))
                 (Remote Sample.request) Sample.job) ∅) = [] /\
  invocations (trace_of (pipeline Sample.healthy Local Sample.job) ∅) = [].
Proof. split; vm_compute; reflexivity. Qed.

(** C7 (as amended).  With a valid key, a request body lacking either
    [rgb_image_path] or [nir_image_path] is rejected before any job starts:
    nothing is touched and no collaborator is called.  A body carrying both
    is processed as a job with exactly those two identifiers, whatever the
    strings are; the model puts no constraint on them beyond being
    present, so an empty identifier is accepted too. *)
Theorem request_requires_both_fields (W : World) (api_key : string)
    (body : gmap string string) (job_id : string) (s : state) :
  api_key = SERVER_API_KEY W ->
  (body !! "rgb_image_path" = None \/ body !! "nir_image_path" = None ->
   generate_stress_map W api_key body job_id s =
     (Raised RequestValidationError, s)) /\
  (forall rgb nir,
     body !! "rgb_image_path" = Some rgb ->
     body !! "nir_image_path" = Some nir ->
     generate_stress_map W api_key body job_id s =
       generate_map W (mkImageProcessRequest rgb nir) job_id s).
Proof.
  intros ->. unfold generate_stress_map, get_api_key,
    ImageProcessRequest_validate.
  rewrite String.eqb_refl. unfold mbind, M_bind, mret, M_ret, raise.
  split.
  - intros [H | H]; rewrite H; [|destruct (body !! "rgb_image_path")];
      reflexivity.
  - intros rgb nir -> ->. reflexivity.
Qed.

Lemma request_requires_both_fields_witness :
  generate_stress_map Sample.healthy "secret" body_without_nir Sample.job
    (initial ∅) = (Raised RequestValidationError, initial ∅).
Proof.
  apply (request_requires_both_fields Sample.healthy "secret"
           body_without_nir Sample.job (initial ∅)).
  - reflexivity.
  - right. reflexivity.
Defined.

(** C7 as stated does not hold for an empty identifier: the body is
    accepted, the job runs, and the storage service is asked for the object
    whose path is the empty string. *)
Lemma empty_identifier_is_processed :
  let run :=
    generate_stress_map Sample.healthy "secret" body_with_empty_rgb
      Sample.job in
  ImageProcessRequest_validate body_with_empty_rgb =
    Some (mkImageProcessRequest EmptyString "fields/7/nir.png") /\
  downloads (trace_of run ∅) =
    [(BUCKET_NAME, EmptyString, inr (PyBytes Sample.png));
     (BUCKET_NAME, "fields/7/nir.png", inr (PyBytes Sample.png))] /\
  length (invocations (trace_of run ∅)) = 1%nat /\
  result_of run ∅ =
    Returned [("message", "Stress map generated successfully!");
              ("output_url",
               Sample.url BUCKET_NAME (output_storage_path Sample.job))].
Proof. cbv zeta. repeat split; vm_compute; reflexivity. Qed.

(** C8. The cleanup step of [generate_map] (the [finally] clause) on a
    workspace path that does not exist returns normally and leaves the
    state, hence the filesystem, unchanged; and it is idempotent: after a
    cleanup that returned normally, a second cleanup returns normally and
    changes nothing. *)
Theorem cleanup_absent_is_noop (temp_dir : string) (s : state) :
  path_exists (fs s) temp_dir = false ->
  cleanup temp_dir s = (Returned tt, s) /\
  (forall s0 s1, cleanup temp_dir s0 = (Returned tt, s1) ->
                 cleanup temp_dir s1 = (Returned tt, s1)).
Proof.
  intros Habs. split.
  - apply cleanup_absent. unfold path_exists in Habs.
    destruct (fs s !! temp_dir); [discriminate | reflexivity].
  - intros s0 s1 H. apply cleanup_absent.
    destruct (fs s0 !! temp_dir) as [[|b]|] eqn:E.
    + rewrite cleanup_dir in H by exact E. injection H as <-. simpl.
      apply rmtree_lookup, within_refl.
    + rewrite (cleanup_file _ _ b) in H by exact E. discriminate.
    + rewrite cleanup_absent in H by exact E. injection H as <-. exact E.
Qed.

Lemma cleanup_absent_is_noop_witness :
  cleanup "/srv/app/temp_x" (initial Sample.fixtures) =
    (Returned tt, initial Sample.fixtures).
Proof.
  apply (cleanup_absent_is_noop "/srv/app/temp_x" (initial Sample.fixtures)).
  reflexivity.
Defined.

(** C9. In local mode nothing is published: when the computation was
    invoked and exited with status 0, the handler returns the dict
    [{message, output_saved_to}] whose [output_saved_to] is exactly the
    output path that was handed to the computation, and the storage service
    is never contacted. *)
Theorem local_success_returns_output_path (W : World) (job_id : string)
    (f : filesystem) (command : string) (process : CompletedProcess) :
  let run := process_local_images W job_id in
  In (command, process) (invocations (trace_of run f)) ->
  returncode process = 0 ->
  result_of run f =
    Returned [("message", "Local processing successful!");
              ("output_saved_to", local_output W job_id)] /\
  command =
    matlab_command (os_getcwd W) (local_rgb W) (local_nir W)
                   (local_output W job_id) /\
  downloads (trace_of run f) = [] /\
  uploads (trace_of run f) = [] /\
  publications (trace_of run f) = [].
Proof.
  intros run. subst run.
  unfold result_of, trace_of, local_rgb, local_nir, local_output,
    local_output_dir.
  run_handlers. explore; intros Hin Hrc; finish_leaf.
  all: repeat split; finish_leaf.
Qed.

Lemma local_success_returns_output_path_witness :
  result_of (process_local_images Sample.healthy Sample.job) Sample.fixtures =
    Returned [("message", "Local processing successful!");
              ("output_saved_to",
               "/srv/app/local_outputs/local_map_" +:+ Sample.job +:+ ".png")].
Proof.
  apply (local_success_returns_output_path Sample.healthy Sample.job
           Sample.fixtures
           (matlab_command "/srv/app"
              "/srv/app/local_test_data/test_rgb.jpg"
              "/srv/app/local_test_data/test_nir.jpg"
              ("/srv/app/local_outputs/local_map_" +:+ Sample.job +:+ ".png"))
           (mkCompletedProcess 0 "done" EmptyString)).
  - vm_compute. left. reflexivity.
  - reflexivity.
Defined.



(** ** Further properties of the handlers *)

(** *** The order of the calls of a remote job *)

Ltac use_exit_status :=
  repeat match goal with
         | H : (_ =? _)%Z = _ |- _ => rewrite H
         end.

Lemma generate_map_try_stages (W : World) (request : ImageProcessRequest)
    (job_id temp_dir : string) (f1 : filesystem) (r : outcome response)
    (s2 : state) :
  generate_map_try W request job_id temp_dir (mkState f1 []) = (r, s2) ->
  map stage_of (trace s2) `prefix_of` remote_stages /\
  forallb succeeded (removelast (trace s2)) = true /\
  ((exists resp, r = Returned resp) <->
   map stage_of (trace s2) = remote_stages /\
   forallb succeeded (trace s2) = true) /\
  (forall e, r = Raised e ->
             exists cause, e = HTTPException 500 (py_str W cause)).
Proof.
  unfold remote_stages.
  run_handlers. explore; intros [= <- <-]; simpl; use_exit_status; simpl;
    (split; [eexists; reflexivity|]); (split; [reflexivity|]);
    (split;
     [ split;
       [ intros [resp Hr];
         first [discriminate Hr | split; reflexivity]
       | intros [Hst Hok];
         first [discriminate Hst | discriminate Hok | eexists; reflexivity] ]
     | intros ? He;
       first [discriminate He | injection He as <-; eexists; reflexivity] ]).
Qed.

(** *** What the computation is given and what is uploaded *)

Ltac out_of_inputs H :=
  rewrite ?lookup_insert_ne in H by assumption.

Lemma generate_map_try_inputs (W : World) (request : ImageProcessRequest)
    (job_id : string) (f1 : filesystem) (r : outcome response) (s2 : state)
    (command : string) (process : CompletedProcess) :
  generate_map_try W request job_id (workspace_path (os_getcwd W) job_id)
    (mkState f1 []) = (r, s2) ->
  In (command, process) (invocations (trace s2)) ->
  exists b1 b2 f0,
    downloads (trace s2) =
      [(BUCKET_NAME, rgb_image_path request, inr (PyBytes b1));
       (BUCKET_NAME, nir_image_path request, inr (PyBytes b2))] /\
    f0 !! remote_rgb W job_id = Some (File b1) /\
    f0 !! remote_nir W job_id = Some (File b2) /\
    process =
      (subprocess_run W
         [EvDownload BUCKET_NAME (rgb_image_path request) (inr (PyBytes b1));
          EvDownload BUCKET_NAME (nir_image_path request) (inr (PyBytes b2))]
         command f0).1.
Proof.
  destruct (remote_paths_distinct W job_id) as (Hrn & _).
  apply not_eq_sym in Hrn.
  unfold remote_rgb, remote_nir in *.
  run_handlers. explore; intros [= <- <-]; simpl; intros Hin;
    finish_leaf;
    match goal with
    | H : subprocess_run _ _ _ ?F = _ |- _ =>
        eexists _, _, F; rewrite H
    end;
    (split; [reflexivity|]; split; [|split];
     [ rewrite !lookup_insert_ne by assumption; apply lookup_insert_eq
     | apply lookup_insert_eq
     | reflexivity ]).
Qed.

Ltac output_was_absent :=
  match goal with
  | H : write_output ?F ?out ?o !! ?out = Some _ |- _ =>
      let HF := fresh "HF" in
      assert (HF : F !! out = None)
        by (rewrite !lookup_insert_ne by assumption; assumption);
      unfold write_output in H; rewrite ?HF in H;
      destruct o; [rewrite lookup_insert_eq in H | congruence]
  end.

Lemma generate_map_try_uploaded (W : World) (request : ImageProcessRequest)
    (job_id : string) (f1 : filesystem) (r : outcome response) (s2 : state)
    (content : bytes) :
  os_path_abspath W (remote_output W job_id) = remote_output W job_id ->
  f1 !! remote_output W job_id = None ->
  generate_map_try W request job_id (workspace_path (os_getcwd W) job_id)
    (mkState f1 []) = (r, s2) ->
  In content (uploaded (trace s2)) ->
  exists history command f0 process,
    In (command, process) (invocations (trace s2)) /\
    subprocess_run W history command f0 = (process, Some content).
Proof.
  destruct (remote_paths_distinct W job_id) as (_ & Hor & Hon & _).
  apply not_eq_sym in Hor. apply not_eq_sym in Hon.
  unfold remote_rgb, remote_nir, remote_output in *.
  intros Habs Hfresh. run_handlers. rewrite !Habs.
  explore; intros [= <- <-]; simpl; intros Hin; finish_leaf;
    output_was_absent; simplify_eq;
    (do 4 eexists; split; [left; reflexivity|]; eassumption).
Qed.

Lemma generate_map_try_needs_output (W : World)
    (request : ImageProcessRequest) (job_id : string) (f1 : filesystem)
    (r : outcome response) (s2 : state) :
  (forall history command f0,
     (subprocess_run W history command f0).2 = None) ->
  f1 !! remote_output W job_id = None ->
  generate_map_try W request job_id (workspace_path (os_getcwd W) job_id)
    (mkState f1 []) = (r, s2) ->
  uploads (trace s2) = [] /\
  (forall resp, r <> Returned resp) /\
  (forall command process,
     In (command, process) (invocations (trace s2)) ->
     returncode process = 0 ->
     r = Raised (HTTPException 500
                   (py_str W (FileNotFoundError (remote_output W job_id))))).
Proof.
  destruct (remote_paths_distinct W job_id) as (_ & Hor & Hon & _).
  apply not_eq_sym in Hor. apply not_eq_sym in Hon.
  unfold remote_rgb, remote_nir, remote_output in *.
  intros Hnever Hfresh. run_handlers.
  explore; intros [= <- <-]; simpl;
    try match goal with
        | H : subprocess_run W ?h ?c ?f = (_, ?o) |- _ =>
            let E := fresh "E" in
            pose proof (Hnever h c f) as E; rewrite H in E; simpl in E;
            subst o
        end;
    try match goal with
        | H : write_output ?F ?out None !! ?p = Some _ |- _ =>
            unfold write_output in H;
            rewrite !lookup_insert_ne in H by assumption; congruence
        end;
    (split; [reflexivity|]); (split; [intros ? [=]|]);
    intros ? ? Hin Hrc; finish_leaf.
Qed.

(** *** Remote mode: further theorems *)

(** X1. The calls a remote job makes to its collaborators are an initial
    segment of: download, download, computation, upload, URL resolution.
    Every call but the last one made succeeded, and the job returns a
    response exactly when all five calls were made and all succeeded. *)
Theorem remote_calls_follow_the_stages (W : World)
    (request : ImageProcessRequest) (job_id : string) (f : filesystem) :
  let run := generate_map W request job_id in
  map stage_of (trace_of run f) `prefix_of` remote_stages /\
  forallb succeeded (removelast (trace_of run f)) = true /\
  ((exists resp, result_of run f = Returned resp) <->
   map stage_of (trace_of run f) = remote_stages /\
   forallb succeeded (trace_of run f) = true).
Proof.
  intros run. subst run.
  destruct (generate_map_outcome W request job_id f)
    as [(_ & Hres & Htr) | (_ & f1 & r & s2 & Htry & _ & Hres & Htr)];
    rewrite Hres, Htr.
  - split; [eexists; reflexivity|]. split; [reflexivity|].
    split; [intros [resp H] | intros [H _]]; discriminate H.
  - destruct (generate_map_try_stages W request job_id _ f1 r s2 Htry)
      as (Hpre & Hlast & Hiff & _).
    auto.
Qed.



(** X3. When the computation of a remote job is invoked, both downloads
    have been made, first the RGB identifier of the request and then the NIR
    one, both returned bytes, and the filesystem the computation runs on
    holds exactly those bytes in [input_rgb.png] and [input_nir.png] of the
    workspace. *)
Theorem computation_sees_downloaded_inputs (W : World)
    (request : ImageProcessRequest) (job_id : string) (f : filesystem)
    (command : string) (process : CompletedProcess) :
  let run := generate_map W request job_id in
  In (command, process) (invocations (trace_of run f)) ->
  exists b1 b2 f0,
    downloads (trace_of run f) =
      [(BUCKET_NAME, rgb_image_path request, inr (PyBytes b1));
       (BUCKET_NAME, nir_image_path request, inr (PyBytes b2))] /\
    f0 !! remote_rgb W job_id = Some (File b1) /\
    f0 !! remote_nir W job_id = Some (File b2) /\
    process =
      (subprocess_run W
         [EvDownload BUCKET_NAME (rgb_image_path request) (inr (PyBytes b1));
          EvDownload BUCKET_NAME (nir_image_path request) (inr (PyBytes b2))]
         command f0).1.
Proof.
  intros run. subst run.
  destruct (generate_map_outcome W request job_id f)
    as [(_ & _ & Htr) | (_ & f1 & r & s2 & Htry & _ & _ & Htr)];
    rewrite Htr.
  - intros [].
  - exact (generate_map_try_inputs W request job_id f1 r s2 command process
             Htry).
Qed.

Lemma computation_sees_downloaded_inputs_witness :
  exists b1 b2 f0,
    downloads
      (trace_of (generate_map Sample.healthy Sample.request Sample.job) ∅) =
      [(BUCKET_NAME, "fields/7/rgb.png", inr (PyBytes b1));
       (BUCKET_NAME, "fields/7/nir.png", inr (PyBytes b2))] /\
    f0 !! remote_rgb Sample.healthy Sample.job = Some (File b1) /\
    f0 !! remote_nir Sample.healthy Sample.job = Some (File b2) /\
    mkCompletedProcess 0 "done" EmptyString =
      (subprocess_run Sample.healthy
         [EvDownload BUCKET_NAME "fields/7/rgb.png" (inr (PyBytes b1));
          EvDownload BUCKET_NAME "fields/7/nir.png" (inr (PyBytes b2))]
         sample_command f0).1.
Proof.
  apply (computation_sees_downloaded_inputs Sample.healthy Sample.request
           Sample.job ∅ sample_command
           (mkCompletedProcess 0 "done" EmptyString)).
  vm_compute. left. reflexivity.
Defined.

(** X4. What a remote job uploads is what its computation wrote: when the
    output path is already absolute and nothing was there before the job,
    every content handed to the upload is the content that an invocation of
    the computation reported to have written to its output file. *)
Theorem uploaded_artifact_is_computed_output (W : World)
    (request : ImageProcessRequest) (job_id : string) (f : filesystem)
    (content : bytes) :
  let run := generate_map W request job_id in
  os_path_abspath W (remote_output W job_id) = remote_output W job_id ->
  f !! remote_output W job_id = None ->
  In content (uploaded (trace_of run f)) ->
  exists history command f0 process,
    In (command, process) (invocations (trace_of run f)) /\
    subprocess_run W history command f0 = (process, Some content).
Proof.
  intros run Habs Hfresh. subst run.
  destruct (remote_paths_distinct W job_id) as (_ & _ & _ & Hot).
  destruct (generate_map_outcome W request job_id f)
    as [(_ & _ & Htr) | (_ & f1 & r & s2 & Htry & Hf1 & _ & Htr)];
    rewrite Htr.
  - intros [].
  - apply (generate_map_try_uploaded W request job_id f1 r s2 content Habs);
      [|exact Htry].
    exact (try_entry_lookup f f1 _ _ Hf1 Hot Hfresh).
Qed.

Lemma uploaded_artifact_is_computed_output_witness :
  exists history command f0 process,
    In (command, process)
       (invocations
          (trace_of (generate_map Sample.healthy Sample.request Sample.job)
                    ∅)) /\
    subprocess_run Sample.healthy history command f0 =
      (process, Some Sample.png).
Proof.
  apply (uploaded_artifact_is_computed_output Sample.healthy Sample.request
           Sample.job ∅ Sample.png).
  - reflexivity.
  - reflexivity.
  - vm_compute. left. reflexivity.
Defined.

(** X5. A remote job cannot publish what was not produced: if the
    computation never writes its output file and nothing was at the output
    path before the job, nothing is uploaded, the job never returns a
    response, and even an exit status 0 ends in an HTTP 500 error for the
    missing output file. *)
Theorem no_output_no_publication (W : World) (request : ImageProcessRequest)
    (job_id : string) (f : filesystem) :
  let run := generate_map W request job_id in
  (forall history command f0,
     (subprocess_run W history command f0).2 = None) ->
  f !! remote_output W job_id = None ->
  uploads (trace_of run f) = [] /\
  (forall resp, result_of run f <> Returned resp) /\
  (forall command process,
     In (command, process) (invocations (trace_of run f)) ->
     returncode process = 0 ->
     result_of run f =
       Raised (HTTPException 500
                 (py_str W (FileNotFoundError (remote_output W job_id))))).
Proof.
  intros run Hnever Hfresh. subst run.
  destruct (remote_paths_distinct W job_id) as (_ & _ & _ & Hot).
  destruct (generate_map_outcome W request job_id f)
    as [(_ & Hres & Htr) | (_ & f1 & r & s2 & Htry & Hf1 & Hres & Htr)];
    rewrite Hres, Htr.
  - split; [reflexivity|]. split; [intros resp H; discriminate H|].
    intros ? ? [].
  - apply (generate_map_try_needs_output W request job_id f1 r s2 Hnever);
      [|exact Htry].
    exact (try_entry_lookup f f1 _ _ Hf1 Hot Hfresh).
Qed.

Lemma no_output_no_publication_witness :
  uploads
    (trace_of (generate_map Sample.matlab_writes_nothing Sample.request
                 Sample.job) ∅) = [] /\
  (forall resp,
     result_of (generate_map Sample.matlab_writes_nothing Sample.request
                  Sample.job) ∅ <> Returned resp).
Proof.
  destruct (no_output_no_publication Sample.matlab_writes_nothing
              Sample.request Sample.job ∅) as (H1 & H2 & _).
  - intros history command f0. reflexivity.
  - reflexivity.
  - split; [exact H1 | exact H2].
Defined.

(** *** What a job leaves untouched *)

Lemma rmtree_lookup_outside (f : filesystem) (p q : string) :
  within p q = false ->
  filter (fun kv : string * node => within p kv.1 = false) f !! q = f !! q.
Proof.
  intros Hq. destruct (f !! q) as [x|] eqn:E.
  - apply map_lookup_filter_Some. split; [exact E | exact Hq].
  - apply map_lookup_filter_None. left. exact E.
Qed.

Lemma changes_only_ret {A : Type} (P : string -> Prop) (a : A) :
  changes_only P (mret a).
Proof. intros s r s' H q _. injection H as _ <-. reflexivity. Qed.

Lemma changes_only_raise {A : Type} (P : string -> Prop) (e : exn) :
  changes_only P (@raise A e).
Proof. intros s r s' H q _. injection H as _ <-. reflexivity. Qed.

Lemma changes_only_bind {A B : Type} (P : string -> Prop) (m : M A)
    (k : A -> M B) :
  changes_only P m -> (forall a, changes_only P (k a)) ->
  changes_only P (m ≫= k).
Proof.
  intros Hm Hk s r s' H q Hq. unfold mbind, M_bind in H.
  destruct (m s) as [[a|e] s1] eqn:E.
  - rewrite (Hk a s1 r s' H q Hq). exact (Hm s _ s1 E q Hq).
  - injection H as _ <-. exact (Hm s _ s1 E q Hq).
Qed.

Lemma changes_only_try_except {A : Type} (P : string -> Prop) (m : M A)
    (h : exn -> M A) :
  changes_only P m -> (forall e, changes_only P (h e)) ->
  changes_only P (try_except m h).
Proof.
  intros Hm Hh s r s' H q Hq. unfold try_except in H.
  destruct (m s) as [[a|e] s1] eqn:E.
  - injection H as _ <-. exact (Hm s _ s1 E q Hq).
  - rewrite (Hh e s1 r s' H q Hq). exact (Hm s _ s1 E q Hq).
Qed.

Lemma changes_only_exists (P : string -> Prop) (p : string) :
  changes_only P (os_path_exists p).
Proof. intros s r s' H q _. injection H as _ <-. reflexivity. Qed.

Lemma changes_only_makedirs (P : string -> Prop) (p : string) :
  P p -> changes_only P (os_makedirs p).
Proof.
  intros Hp s r s' H q Hq. unfold os_makedirs in H. unfold_monad.
  simpl in H.
  destruct (fs s !! p) as [[|b]|] eqn:E; injection H as _ <-; simpl;
    try reflexivity.
  apply lookup_insert_ne. intros ->. exact (Hq Hp).
Qed.

Lemma changes_only_open_wb (P : string -> Prop) (p : string) :
  P p -> changes_only P (open_wb p).
Proof.
  intros Hp s r s' H q Hq. unfold open_wb in H. unfold_monad. simpl in H.
  destruct (fs s !! p) as [[|b]|] eqn:E; injection H as _ <-; simpl;
    try reflexivity; apply lookup_insert_ne; intros ->; exact (Hq Hp).
Qed.

Lemma changes_only_file_write (P : string -> Prop) (p : string)
    (v : py_value) :
  P p -> changes_only P (file_write p v).
Proof.
  intros Hp s r s' H q Hq. unfold file_write in H. unfold_monad.
  destruct v as [|b]; simpl in H; [injection H as _ <-; reflexivity|].
  destruct (fs s !! p) as [[|c]|] eqn:E; injection H as _ <-; simpl;
    try reflexivity.
  apply lookup_insert_ne. intros ->. exact (Hq Hp).
Qed.

Lemma changes_only_open_rb (P : string -> Prop) (p : string) :
  changes_only P (open_rb p).
Proof.
  intros s r s' H q _. unfold open_rb in H. unfold_monad. simpl in H.
  destruct (fs s !! p) as [[|b]|]; injection H as _ <-; reflexivity.
Qed.

Lemma changes_only_check_returncode (P : string -> Prop)
    (process : CompletedProcess) :
  changes_only P (check_returncode process).
Proof.
  unfold check_returncode. destruct (returncode process =? 0)%Z;
    [apply changes_only_ret | apply changes_only_raise].
Qed.

Lemma write_output_outside (f : filesystem) (out : string)
    (w : option bytes) (q : string) :
  q <> out -> write_output f out w !! q = f !! q.
Proof.
  intros Hq. unfold write_output. destruct w as [b|]; [|reflexivity].
  destruct (f !! out) as [[|c]|]; try reflexivity;
    apply lookup_insert_ne; apply not_eq_sym; exact Hq.
Qed.

Section Frame.

Context (W : World) (P : string -> Prop).

Lemma changes_only_download (b p : string) : changes_only P (download W b p).
Proof.
  intros s r s' H q _. unfold download in H. unfold_monad. simpl in H.
  destruct (storage_download W (trace s) b p); injection H as _ <-;
    reflexivity.
Qed.

Lemma changes_only_upload (b p : string) (c : bytes) (t : string) :
  changes_only P (upload W b p c t).
Proof.
  intros s r s' H q _. unfold upload in H. unfold_monad. simpl in H.
  destruct (storage_upload W (trace s) b p c t); injection H as _ <-;
    reflexivity.
Qed.

Lemma changes_only_get_public_url (b p : string) :
  changes_only P (get_public_url W b p).
Proof.
  intros s r s' H q _. unfold get_public_url in H. unfold_monad.
  simpl in H.
  destruct (storage_get_public_url W (trace s) b p); injection H as _ <-;
    reflexivity.
Qed.

Lemma changes_only_run_command (command out : string) :
  P out -> changes_only P (run_command W command out).
Proof.
  intros Hp s r s' H q Hq. unfold run_command in H. unfold_monad.
  simpl in H.
  destruct (subprocess_run W (trace s) command (fs s)) as [process written].
  simpl in H. injection H as _ <-. simpl.
  apply write_output_outside. intros ->. exact (Hq Hp).
Qed.

Ltac frame_tac :=
  repeat first
    [ apply changes_only_ret
    | apply changes_only_raise
    | apply changes_only_exists
    | apply changes_only_download
    | apply changes_only_upload
    | apply changes_only_get_public_url
    | apply changes_only_open_rb
    | apply changes_only_check_returncode
    | apply changes_only_makedirs; assumption
    | apply changes_only_open_wb; assumption
    | apply changes_only_file_write; assumption
    | apply changes_only_run_command; assumption
    | apply changes_only_try_except; [| intros ?]
    | apply changes_only_bind; [| intros ?] ].

Lemma changes_only_generate_map_try (request : ImageProcessRequest)
    (job_id : string) :
  P (remote_rgb W job_id) -> P (remote_nir W job_id) ->
  P (os_path_abspath W (remote_output W job_id)) ->
  changes_only P
    (generate_map_try W request job_id (workspace_path (os_getcwd W) job_id)).
Proof.
  unfold remote_rgb, remote_nir, remote_output. intros Hr Hn Ho.
  unfold generate_map_try, generate_map_body, generate_map_except.
  cbv zeta. frame_tac.
Qed.

Lemma changes_only_process_local_images (job_id : string) :
  P (local_output_dir W) -> P (local_output W job_id) ->
  changes_only P (process_local_images W job_id).
Proof.
  unfold local_output_dir, local_output. intros Hd Ho.
  unfold process_local_images. cbv zeta.
  apply changes_only_bind; [apply changes_only_makedirs; assumption|].
  intros _.
  apply changes_only_bind; [apply changes_only_exists|]. intros rgb_exists.
  apply changes_only_bind; [apply changes_only_exists|]. intros nir_exists.
  destruct (negb rgb_exists || negb nir_exists); frame_tac.
Qed.

End Frame.

(** X6. A remote job leaves the rest of the filesystem as it found it: a
    path outside the workspace tree that is none of the two input files and
    not the output path named to the computation has the same entry after
    the job as before, on every exit path. *)
Theorem remote_job_leaves_the_rest (W : World) (request : ImageProcessRequest)
    (job_id : string) (f : filesystem) (q : string) :
  within (workspace_path (os_getcwd W) job_id) q = false ->
  q <> remote_rgb W job_id ->
  q <> remote_nir W job_id ->
  q <> os_path_abspath W (remote_output W job_id) ->
  fs_after (generate_map W request job_id) f !! q = f !! q.
Proof.
  intros Hout Hr Hn Ho. unfold fs_after.
  destruct (is_file f (workspace_path (os_getcwd W) job_id)) eqn:Hfile.
  - rewrite generate_map_blocked by exact Hfile. reflexivity.
  - destruct (generate_map_created W request job_id (initial f) Hfile)
      as (s1 & r & s2 & Hmk & _ & _ & Htry & Hrun).
    rewrite Hrun. simpl. rewrite rmtree_lookup_outside by exact Hout.
    pose (P := fun p : string =>
                 p = workspace_path (os_getcwd W) job_id \/
                 p = remote_rgb W job_id \/ p = remote_nir W job_id \/
                 p = os_path_abspath W (remote_output W job_id)).
    assert (HP : ~ P q).
    { unfold P. intros [-> | [-> | [-> | ->]]]; try congruence.
      rewrite within_refl in Hout. discriminate Hout. }
    rewrite (changes_only_generate_map_try W P request job_id
               (or_intror (or_introl eq_refl))
               (or_intror (or_intror (or_introl eq_refl)))
               (or_intror (or_intror (or_intror eq_refl)))
               s1 r s2 Htry q HP).
    exact (changes_only_makedirs P _ (or_introl eq_refl) _ _ _ Hmk q HP).
Qed.

Lemma remote_job_leaves_the_rest_witness :
  fs_after (generate_map Sample.healthy Sample.request Sample.job)
    Sample.fixtures !! "/srv/app/local_test_data/test_rgb.jpg" =
  Some (File Sample.png).
Proof.
  rewrite (remote_job_leaves_the_rest Sample.healthy Sample.request
             Sample.job Sample.fixtures
             "/srv/app/local_test_data/test_rgb.jpg").
  - reflexivity.
  - reflexivity.
  - discriminate.
  - discriminate.
  - discriminate.
Defined.

(** *** Local mode: further theorems *)

(** X7. A local run never touches anything but its output: every path
    other than the output directory and the output file of the job, the two
    fixtures included, has the same entry after the run as before. *)
Theorem local_run_leaves_the_rest (W : World) (job_id : string)
    (f : filesystem) (q : string) :
  q <> local_output_dir W ->
  q <> local_output W job_id ->
  fs_after (process_local_images W job_id) f !! q = f !! q.
Proof.
  intros Hd Ho. unfold fs_after.
  destruct (process_local_images W job_id (initial f)) as [r s'] eqn:E.
  pose (P := fun p : string =>
               p = local_output_dir W \/ p = local_output W job_id).
  apply (changes_only_process_local_images W P job_id
           (or_introl eq_refl) (or_intror eq_refl) _ _ _ E q).
  unfold P. intros [-> | ->]; congruence.
Qed.

Lemma local_run_leaves_the_rest_witness :
  fs_after (process_local_images Sample.healthy Sample.job) Sample.fixtures
    !! "/srv/app/local_test_data/test_nir.jpg" = Some (File Sample.png).
Proof.
  rewrite (local_run_leaves_the_rest Sample.healthy Sample.job
             Sample.fixtures "/srv/app/local_test_data/test_nir.jpg").
  - reflexivity.
  - discriminate.
  - discriminate.
Defined.

(** X8. A local run leaves its output directory behind: whenever
    [local_outputs] is not a regular file beforehand, it is a directory
    after the run, also when the run ended with the 404 of the missing
    fixtures or with a failed computation. *)
Theorem local_output_dir_is_created (W : World) (job_id : string)
    (f : filesystem) :
  is_file f (local_output_dir W) = false ->
  is_dir (fs_after (process_local_images W job_id) f) (local_output_dir W)
    = true.
Proof.
  intros Hfile. unfold fs_after.
  destruct (process_local_images W job_id (initial f)) as [r s'] eqn:E.
  simpl. revert E. unfold process_local_images. cbv zeta.
  unfold mbind at 1. unfold M_bind at 1.
  fold (local_output_dir W).
  destruct (os_makedirs (local_output_dir W) (initial f)) as [[[]|e] s1]
    eqn:Emk.
  - assert (Hdir : fs s1 !! local_output_dir W = Some Dir).
    { revert Emk. unfold is_file in Hfile. unfold os_makedirs. unfold_monad.
      simpl. destruct (f !! local_output_dir W) as [[|b]|] eqn:Ef;
        try discriminate; intros [= <-]; simpl;
        [exact Ef | apply lookup_insert_eq]. }
    intros E. unfold is_dir.
    enough (Hs : fs s' !! local_output_dir W = Some Dir) by now rewrite Hs.
    revert E. run_handlers.
    explore; intros [= <- <-]; simpl; try exact Hdir;
      apply write_output_keeps; exact Hdir.
  - exfalso. revert Emk. unfold is_file in Hfile. unfold os_makedirs.
    unfold_monad. simpl.
    destruct (f !! local_output_dir W) as [[|b]|]; discriminate.
Qed.

Lemma local_output_dir_is_created_witness :
  is_dir (fs_after (process_local_images Sample.healthy Sample.job) ∅)
    "/srv/app/local_outputs" = true.
Proof.
  apply (local_output_dir_is_created Sample.healthy Sample.job ∅).
  reflexivity.
Defined.

(** *** The key check of the remote route *)



(** With the server's key, which [api_key_header] passes on when it is not
    empty, and a JSON body, the route is [generate_stress_map] on that key
    and that body. *)
Lemma route_with_the_key (W : World) (status : Z) (key : string)
    (body : gmap string string) (job_id : string) (s : state) :
  key <> EmptyString ->
  generate_stress_map_route W status (Some key) (JsonObject body) job_id s =
    generate_stress_map W key body job_id s.
Proof.
  intros Hkey. unfold generate_stress_map_route, api_key_header.
  destruct key as [|c key]; [contradiction | reflexivity].
Qed.

(** *** Command lines and destinations across jobs *)

(** X13. The command line of a remote job is built from the working
    directory and the job identifier alone: two requests served under the
    same job identifier run the same command, whatever image identifiers
    they carry and whatever the filesystem holds.  Nothing the caller sends
    reaches the shell. *)
Theorem command_ignores_request (W : World)
    (request1 request2 : ImageProcessRequest) (job_id : string)
    (f1 f2 : filesystem) (command1 command2 : string)
    (process1 process2 : CompletedProcess) :
  In (command1, process1)
     (invocations (trace_of (generate_map W request1 job_id) f1)) ->
  In (command2, process2)
     (invocations (trace_of (generate_map W request2 job_id) f2)) ->
  command1 = command2.
Proof.
  intros H1 H2.
  destruct (generate_map_outcome W request1 job_id f1)
    as [(_ & _ & Htr1) | (_ & g1 & r1 & s1 & Htry1 & _ & _ & Htr1)];
    rewrite Htr1 in H1; [destruct H1|].
  destruct (generate_map_outcome W request2 job_id f2)
    as [(_ & _ & Htr2) | (_ & g2 & r2 & s2 & Htry2 & _ & _ & Htr2)];
    rewrite Htr2 in H2; [destruct H2|].
  destruct (generate_map_try_invocations W request1 job_id g1 r1 s1 Htry1)
    as (_ & Hc1 & _).
  destruct (generate_map_try_invocations W request2 job_id g2 r2 s2 Htry2)
    as (_ & Hc2 & _).
  destruct (Hc1 _ _ H1) as [-> _]. destruct (Hc2 _ _ H2) as [-> _].
  reflexivity.
Qed.

Lemma command_ignores_request_witness :
  sample_command = sample_command.
Proof.
  apply (command_ignores_request Sample.healthy Sample.request
           (mkImageProcessRequest "other/rgb.png" "other/nir.png") Sample.job
           ∅ Sample.fixtures sample_command sample_command
           (mkCompletedProcess 0 "done" EmptyString)
           (mkCompletedProcess 0 "done" EmptyString)).
  - vm_compute. left. reflexivity.
  - vm_compute. left. reflexivity.
Defined.

(** X14. Jobs with distinct identifiers publish to distinct places: the
    output file name and the destination object path are injective in the
    job identifier, so no job overwrites the published map of another. *)
Theorem destination_paths_distinct (job1 job2 : string) :
  job1 <> job2 ->
  output_filename job1 <> output_filename job2 /\
  output_storage_path job1 <> output_storage_path job2.
Proof.
  intros Hne.
  assert (Hname : output_filename job1 <> output_filename job2).
  { unfold output_filename. intros H. apply append_inj_l in H.
    apply append_inj_r in H. contradiction. }
  split; [exact Hname|].
  unfold output_storage_path. intros H. apply append_inj_l in H.
  contradiction.
Qed.

Lemma destination_paths_distinct_witness :
  output_storage_path "job-a" <> output_storage_path "job-b".
Proof.
  apply (destination_paths_distinct "job-a" "job-b").
  discriminate.
Defined.
